(** * Verification of spanner/django/operations.py

    A shallow embedding of [DatabaseOperations], the SQL-dialect and
    value-coercion layer of the Cloud Spanner backend for Django, together
    with the properties stated about it.

    Python strings are [string]; byte strings are [list byte]; a Python
    call that may raise returns a [result]; [None] is the [None] of
    [option]. *)

From Stdlib Require Import String Ascii List Bool NArith ZArith Lia.
From Stdlib Require Import DecimalString Wf_nat.
From Stdlib Require Decimal DecimalPos DecimalN.
From Stdlib.Strings Require Import Byte.
Import ListNotations.
Open Scope string_scope.

(** ** Exceptions and results *)

(** The exceptions the modelled code paths can raise.  [Unmodelled] stands
    for a conversion specifier of the [%] operator other than [%s] and
    [%%]: no template of this module contains one.  It also stands for
    [astimezone] on a value without a zone, which consults the zone of the
    process: the module never makes that call. *)
Inductive exception : Type :=
| ValueError
| TypeError
| OverflowError
| BinasciiError
| Unmodelled.

Inductive result (A : Type) : Type :=
| Return (a : A)
| Raise (e : exception).

Arguments Return {A} a.
Arguments Raise {A} e.

Definition bind {A B : Type} (m : result A) (k : A -> result B) : result B :=
  match m with
  | Return a => k a
  | Raise e => Raise e
  end.

Notation "x <- m ;; k" := (bind m (fun x => k))
  (at level 61, m at next level, right associativity).

Definition fmap {A B : Type} (f : A -> B) (m : result A) : result B :=
  x <- m ;; Return (f x).

(** A list comprehension whose body may raise: elements are evaluated from
    left to right and the first exception escapes. *)
Fixpoint comprehension {A B : Type} (f : A -> result B) (l : list A)
  : result (list B) :=
  match l with
  | [] => Return []
  | a :: l' => b <- f a ;; bs <- comprehension f l' ;; Return (b :: bs)
  end.

(** ** Python string operations *)

Module PyStr.

(** The double-quote character, which several SQL templates contain. *)
Definition dquote : string := String "034"%char EmptyString.

(** [tmpl % args] for templates built from literal text, [%s] and [%%]. *)
Fixpoint format (tmpl : string) (args : list string) : result string :=
  match tmpl with
  | EmptyString =>
      match args with
      | [] => Return EmptyString
      | _ :: _ => Raise TypeError
      end
  | String c rest =>
      if Ascii.eqb c "%" then
        match rest with
        | EmptyString => Raise ValueError
        | String d rest' =>
            if Ascii.eqb d "%" then fmap (String "%") (format rest' args)
            else if Ascii.eqb d "s" then
              match args with
              | [] => Raise TypeError
              | a :: args' => fmap (append a) (format rest' args')
              end
            else Raise Unmodelled
        end
      else fmap (String c) (format rest args)
  end.

(** [sub in s] *)
Fixpoint contains (sub s : string) : bool :=
  prefix sub s ||
  match s with
  | EmptyString => false
  | String _ s' => contains sub s'
  end.

(** [x in (t1, t2, ...)] on strings. *)
Definition in_tuple (x : string) (t : list string) : bool :=
  existsb (String.eqb x) t.

(** A string without the [%] character. *)
Fixpoint percent_free (s : string) : bool :=
  match s with
  | EmptyString => true
  | String c s' => negb (Ascii.eqb c "%") && percent_free s'
  end.

(** [sep.join(items)] *)
Fixpoint join (sep : string) (items : list string) : string :=
  match items with
  | [] => EmptyString
  | x :: rest =>
      match rest with
      | [] => x
      | _ :: _ => x ++ sep ++ join sep rest
      end
  end.

End PyStr.

(** A [dict] with string keys, as a list of items; [dict_get] is
    [d.get(key, default)]. *)
Definition dict := list (string * string).

Fixpoint dict_get (d : dict) (key default : string) : string :=
  match d with
  | [] => default
  | (k, v) :: d' => if String.eqb k key then v else dict_get d' key default
  end.

Definition dict_keys (d : dict) : list string := map fst d.

(** ** Ambient objects *)

(** [django.conf.settings], as far as this module reads it. *)
Record Settings : Type := { USE_TZ : bool }.

(** The terminal style passed to [sql_flush]. *)
Record Style : Type := {
  SQL_KEYWORD : string -> string;
  SQL_FIELD : string -> string
}.

(** [django.core.management.color.no_style()]: every role is the identity. *)
Definition no_style : Style :=
  {| SQL_KEYWORD := fun s => s; SQL_FIELD := fun s => s |}.

(** ** Dates and times *)

Module PyTime.

(** [str(n)] for a non-negative integer. *)
Definition decimal (n : N) : string := NilZero.string_of_uint (N.to_uint n).

Fixpoint zeros (k : nat) : string :=
  match k with
  | O => EmptyString
  | S k' => String "0" (zeros k')
  end.

(** ["%0<w>d" % n] for a non-negative integer [n]. *)
Definition zpad (w : nat) (n : N) : string :=
  let s := decimal n in
  zeros (w - String.length s) ++ s.

(** A [datetime.timedelta], in microseconds. *)
Definition timedelta := Z.

Section WithTzinfo.

(** The class of time-zone objects ([datetime.tzinfo] and its subclasses). *)
Variable tzinfo : Type.

Record date : Type := {
  date_year : N; date_month : N; date_day : N
}.

Record time : Type := {
  time_hour : N; time_minute : N; time_second : N; time_microsecond : N;
  time_tzinfo : option tzinfo
}.

Record datetime : Type := {
  year : N; month : N; day : N;
  hour : N; minute : N; second : N; microsecond : N;
  dt_tzinfo : option tzinfo
}.

(** [google.api_core.datetime_helpers.DatetimeWithNanoseconds]: a
    [datetime] that also carries a nanosecond field. *)
Record DatetimeWithNanoseconds : Type := {
  as_datetime : datetime;
  nanosecond : N
}.

(** [tz.utcoffset(dt)]; [time] objects call it with [None]. *)
Variable tz_utcoffset : tzinfo -> option datetime -> option timedelta.

(** [value.astimezone(tz)], from the standard library.  It raises when the
    result leaves the range of [datetime]. *)
Variable astimezone : datetime -> tzinfo -> result datetime.

Definition utcoffset (value : datetime) : option timedelta :=
  match dt_tzinfo value with
  | None => None
  | Some tz => tz_utcoffset tz (Some value)
  end.

Definition time_utcoffset (value : time) : option timedelta :=
  match time_tzinfo value with
  | None => None
  | Some tz => tz_utcoffset tz None
  end.

(** [value.replace(tzinfo=None)] *)
Definition replace_tzinfo_None (value : datetime) : datetime :=
  {| year := year value; month := month value; day := day value;
     hour := hour value; minute := minute value; second := second value;
     microsecond := microsecond value; dt_tzinfo := None |}.

(** [datetime._format_offset] *)
Definition format_offset (off : option timedelta) : string :=
  match off with
  | None => EmptyString
  | Some off =>
      let sign := if (off <? 0)%Z then "-" else "+" in
      let off := Z.abs_N off in
      let hh := (off / 3600000000)%N in
      let mm := ((off mod 3600000000) / 60000000)%N in
      let ss := (off mod 60000000)%N in
      sign ++ zpad 2 hh ++ ":" ++ zpad 2 mm ++
      (if (ss =? 0)%N then EmptyString
       else ":" ++ zpad 2 (ss / 1000000)%N ++
            (if (ss mod 1000000 =? 0)%N then EmptyString
             else "." ++ zpad 6 (ss mod 1000000)%N))
  end.

(** [datetime._format_time(hh, mm, ss, us, 'microseconds')] *)
Definition format_time_microseconds (hh mm ss us : N) : string :=
  zpad 2 hh ++ ":" ++ zpad 2 mm ++ ":" ++ zpad 2 ss ++ "." ++ zpad 6 us.

(** [str(value)] for a [date]: its [isoformat()]. *)
Definition date_str (value : date) : string :=
  zpad 4 (date_year value) ++ "-" ++ zpad 2 (date_month value) ++ "-"
    ++ zpad 2 (date_day value).

(** [value.isoformat(timespec='microseconds')] for a [datetime]. *)
Definition isoformat_microseconds (value : datetime) : string :=
  zpad 4 (year value) ++ "-" ++ zpad 2 (month value) ++ "-"
    ++ zpad 2 (day value) ++ "T"
    ++ format_time_microseconds (hour value) (minute value) (second value)
         (microsecond value)
    ++ format_offset (utcoffset value).

(** [value.isoformat(timespec='microseconds')] for a [time]. *)
Definition time_isoformat_microseconds (value : time) : string :=
  format_time_microseconds (time_hour value) (time_minute value)
    (time_second value) (time_microsecond value)
    ++ format_offset (time_utcoffset value).

(** [django.utils.timezone] *)
Definition is_aware (value : datetime) : bool :=
  match utcoffset value with
  | Some _ => true
  | None => false
  end.

Definition is_naive (value : datetime) : bool :=
  match utcoffset value with
  | Some _ => false
  | None => true
  end.

Definition make_naive (value : datetime) (timezone : tzinfo)
  : result datetime :=
  if is_naive value then Raise ValueError
  else
    local <- astimezone value timezone ;;
    Return (replace_tzinfo_None local).

End WithTzinfo.

Arguments time_hour {tzinfo} t.
Arguments time_minute {tzinfo} t.
Arguments time_second {tzinfo} t.
Arguments time_microsecond {tzinfo} t.
Arguments time_tzinfo {tzinfo} t.
Arguments year {tzinfo} d.
Arguments month {tzinfo} d.
Arguments day {tzinfo} d.
Arguments hour {tzinfo} d.
Arguments minute {tzinfo} d.
Arguments second {tzinfo} d.
Arguments microsecond {tzinfo} d.
Arguments dt_tzinfo {tzinfo} d.
Arguments as_datetime {tzinfo} d.
Arguments nanosecond {tzinfo} d.
Arguments utcoffset {tzinfo} tz_utcoffset value.
Arguments time_utcoffset {tzinfo} tz_utcoffset value.
Arguments replace_tzinfo_None {tzinfo} value.
Arguments isoformat_microseconds {tzinfo} tz_utcoffset value.
Arguments time_isoformat_microseconds {tzinfo} tz_utcoffset value.
Arguments is_aware {tzinfo} tz_utcoffset value.
Arguments is_naive {tzinfo} tz_utcoffset value.
Arguments make_naive {tzinfo} tz_utcoffset astimezone value timezone.

(** *** The calendar arithmetic of the [datetime] module *)

Section Calendar.

Local Open Scope Z_scope.

Definition MAXORDINAL : Z := 3652059.

Definition is_leap (year : Z) : bool :=
  (year mod 4 =? 0) && (negb (year mod 100 =? 0) || (year mod 400 =? 0)).

Definition days_before_year (year : Z) : Z :=
  let y := year - 1 in
  y * 365 + y / 4 - y / 100 + y / 400.

(** [_DAYS_IN_MONTH[month]] *)
Definition DAYS_IN_MONTH (month : Z) : Z :=
  match month with
  | 2 => 28
  | 4 | 6 | 9 | 11 => 30
  | _ => 31
  end.

(** [_DAYS_BEFORE_MONTH[month]] *)
Definition DAYS_BEFORE_MONTH (month : Z) : Z :=
  match month with
  | 1 => 0
  | 2 => 31
  | 3 => 59
  | 4 => 90
  | 5 => 120
  | 6 => 151
  | 7 => 181
  | 8 => 212
  | 9 => 243
  | 10 => 273
  | 11 => 304
  | _ => 334
  end.

Definition days_before_month (year month : Z) : Z :=
  DAYS_BEFORE_MONTH month
    + (if (2 <? month) && is_leap year then 1 else 0).

Definition ymd2ord (year month day : Z) : Z :=
  days_before_year year + days_before_month year month + day.

Definition ord2ymd (n : Z) : Z * Z * Z :=
  let n := n - 1 in
  let n400 := n / 146097 in
  let n := n mod 146097 in
  let year := n400 * 400 + 1 in
  let n100 := n / 36524 in
  let n := n mod 36524 in
  let n4 := n / 1461 in
  let n := n mod 1461 in
  let n1 := n / 365 in
  let n := n mod 365 in
  let year := year + n100 * 100 + n4 * 4 + n1 in
  if (n1 =? 4) || (n100 =? 4) then (year - 1, 12, 31)
  else
    let leapyear := (n1 =? 3) && (negb (n4 =? 24) || (n100 =? 3)) in
    let month := Z.shiftr (n + 50) 5 in
    let preceding :=
      DAYS_BEFORE_MONTH month
        + (if (2 <? month) && leapyear then 1 else 0) in
    if n <? preceding then
      let month := month - 1 in
      let preceding :=
        preceding
          - (DAYS_IN_MONTH month
               + (if (month =? 2) && leapyear then 1 else 0)) in
      (year, month, n - preceding + 1)
    else (year, month, n - preceding + 1).

Context {tzinfo : Type}.

Definition toordinal (self : datetime tzinfo) : Z :=
  ymd2ord (Z.of_N (year self)) (Z.of_N (month self)) (Z.of_N (day self)).

(** [self + other] for a [datetime] and a [timedelta]: the zone is kept,
    and a result outside years 1 to 9999 raises. *)
Definition add_timedelta (self : datetime tzinfo) (other : timedelta)
  : result (datetime tzinfo) :=
  let delta :=
    toordinal self * 86400000000 + Z.of_N (hour self) * 3600000000
      + Z.of_N (minute self) * 60000000 + Z.of_N (second self) * 1000000
      + Z.of_N (microsecond self) + other in
  let days := delta / 86400000000 in
  let seconds := (delta mod 86400000000) / 1000000 in
  let microseconds := (delta mod 86400000000) mod 1000000 in
  let hour := seconds / 3600 in
  let rem := seconds mod 3600 in
  let minute := rem / 60 in
  let second := rem mod 60 in
  if (0 <? days) && (days <=? MAXORDINAL) then
    let '(y, m, d) := ord2ymd days in
    Return {| year := Z.to_N y; month := Z.to_N m; day := Z.to_N d;
              hour := Z.to_N hour; minute := Z.to_N minute;
              second := Z.to_N second;
              microsecond := Z.to_N microseconds;
              dt_tzinfo := dt_tzinfo self |}
  else Raise OverflowError.

(** [value.replace(tzinfo=tz)] *)
Definition replace_tzinfo (value : datetime tzinfo) (tz : option tzinfo)
  : datetime tzinfo :=
  {| year := year value; month := month value; day := day value;
     hour := hour value; minute := minute value; second := second value;
     microsecond := microsecond value; dt_tzinfo := tz |}.

End Calendar.

End PyTime.

(** ** Base64

    [binascii.a2b_base64] in its default, non-strict mode, which is what
    [base64.b64decode] calls, and the encoding of RFC 4648 that
    [base64.b64encode] produces. *)

Module Base64.

Local Open Scope list_scope.
Local Open Scope N_scope.

(** A C [unsigned char] holding [n]: the low eight bits. *)
Definition uchar (n : N) : byte :=
  match Byte.of_N (n mod 256) with
  | Some b => b
  | None => x00
  end.

Definition BASE64_PAD : byte := "="%byte.

(** [table_b2a_base64]: the alphabet, indexed by a six-bit value. *)
Definition table_b2a_base64 (n : N) : byte :=
  if n <? 26 then uchar (65 + n)
  else if n <? 52 then uchar (97 + (n - 26))
  else if n <? 62 then uchar (48 + (n - 52))
  else if n =? 62 then "+"%byte
  else "/"%byte.

(** [table_a2b_base64]: the six-bit value of an alphabet character, and a
    value above 63 for every other character. *)
Definition table_a2b_base64 (c : byte) : N :=
  let n := Byte.to_N c in
  if (65 <=? n) && (n <=? 90) then n - 65
  else if (97 <=? n) && (n <=? 122) then n - 97 + 26
  else if (48 <=? n) && (n <=? 57) then n - 48 + 52
  else if n =? 43 then 62
  else if n =? 47 then 63
  else 255.

(** The decoding loop, with its local variables [quad_pos], [leftchar] and
    [pads] and the output written so far as arguments.  Characters outside
    the alphabet are skipped; a pad that completes a group ends the
    decoding; an input that ends inside a group raises [binascii.Error]. *)
Fixpoint a2b_base64_loop (ascii_data : list byte)
    (quad_pos leftchar pads : N) (bin_data : list byte)
  : result (list byte) :=
  match ascii_data with
  | [] =>
      if quad_pos =? 0 then Return bin_data else Raise BinasciiError
  | this_ch :: rest =>
      if Byte.eqb this_ch BASE64_PAD then
        if 2 <=? quad_pos then
          let pads := pads + 1 in
          if 4 <=? quad_pos + pads then Return bin_data
          else a2b_base64_loop rest quad_pos leftchar pads bin_data
        else a2b_base64_loop rest quad_pos leftchar pads bin_data
      else
        let this_ch := table_a2b_base64 this_ch in
        if 64 <=? this_ch then
          a2b_base64_loop rest quad_pos leftchar pads bin_data
        else
          let pads := 0 in
          match quad_pos with
          | 0 => a2b_base64_loop rest 1 this_ch pads bin_data
          | 1 =>
              a2b_base64_loop rest 2 (N.land this_ch 15) pads
                (bin_data ++
                   [uchar (N.lor (N.shiftl leftchar 2) (N.shiftr this_ch 4))])
          | 2 =>
              a2b_base64_loop rest 3 (N.land this_ch 3) pads
                (bin_data ++
                   [uchar (N.lor (N.shiftl leftchar 4) (N.shiftr this_ch 2))])
          | _ =>
              a2b_base64_loop rest 0 0 pads
                (bin_data ++ [uchar (N.lor (N.shiftl leftchar 6) this_ch)])
          end
  end.

Definition a2b_base64 (data : list byte) : result (list byte) :=
  a2b_base64_loop data 0 0 0 [].

Definition b64decode (s : list byte) : result (list byte) := a2b_base64 s.

(** [base64.b64encode]: three bytes become four alphabet characters, and a
    tail of one or two bytes is completed with pads. *)
Fixpoint b64encode (s : list byte) : list byte :=
  match s with
  | [] => []
  | [b0] =>
      let n0 := Byte.to_N b0 in
      [ table_b2a_base64 (N.shiftr n0 2);
        table_b2a_base64 (N.shiftl (N.land n0 3) 4);
        BASE64_PAD; BASE64_PAD ]
  | [b0; b1] =>
      let n0 := Byte.to_N b0 in
      let n1 := Byte.to_N b1 in
      [ table_b2a_base64 (N.shiftr n0 2);
        table_b2a_base64 (N.lor (N.shiftl (N.land n0 3) 4) (N.shiftr n1 4));
        table_b2a_base64 (N.shiftl (N.land n1 15) 2);
        BASE64_PAD ]
  | b0 :: b1 :: b2 :: rest =>
      let n0 := Byte.to_N b0 in
      let n1 := Byte.to_N b1 in
      let n2 := Byte.to_N b2 in
      table_b2a_base64 (N.shiftr n0 2)
        :: table_b2a_base64 (N.lor (N.shiftl (N.land n0 3) 4) (N.shiftr n1 4))
        :: table_b2a_base64 (N.lor (N.shiftl (N.land n1 15) 2) (N.shiftr n2 6))
        :: table_b2a_base64 (N.land n2 63)
        :: b64encode rest
  end.

End Base64.

(** ** Regular-expression escaping *)

Module Re.

(** The characters [re.escape] protects (its [_special_chars_map]): the
    punctuation below, then space, tab, newline, carriage return, vertical
    tab and form feed. *)
Definition special_chars : list ascii :=
  list_ascii_of_string "()[]{}?*+-|^$\.&~# "
    ++ ["009"; "010"; "013"; "011"; "012"]%char.

Definition is_special (c : ascii) : bool :=
  existsb (Ascii.eqb c) special_chars.

(** [re.escape(pattern)] on a [str]: every special character gets a
    backslash. *)
Fixpoint escape (pattern : string) : string :=
  match pattern with
  | EmptyString => EmptyString
  | String c rest =>
      if is_special c then String "\" (String c (escape rest))
      else String c (escape rest)
  end.

End Re.

(** ** SQL fragments of [DatabaseOperations] *)

Module DatabaseOperations.

Definition extract_names : dict :=
  [ ("week_day", "dayofweek");
    ("iso_week", "isoweek");
    ("iso_year", "isoyear") ].

Section Statements.

(** [spanner.dbapi.parse_utils.escape_name], imported by the module. *)
Variable escape_name : string -> string.

Definition quote_name (name : string) : string := escape_name name.

Definition sql_flush (style : Style) (tables : list string)
    (sequences : list string) (allow_cascade : bool)
  : result (list string) :=
  match tables with
  | _ :: _ =>
      delete_sql <- PyStr.format "%s %s %%s"
                      [SQL_KEYWORD style "DELETE"; SQL_KEYWORD style "FROM"] ;;
      comprehension
        (fun table =>
           PyStr.format delete_sql [SQL_FIELD style (quote_name table)])
        tables
  | [] => Return []
  end.

End Statements.

(** The generator expressions are consumed by [join], one row after the
    other. *)
Definition bulk_insert_sql (fields : list string)
    (placeholder_rows : list (list string)) : result string :=
  let placeholder_rows_sql := map (PyStr.join ", ") placeholder_rows in
  values <- comprehension (fun sql => PyStr.format "(%s)" [sql])
              placeholder_rows_sql ;;
  let values_sql := PyStr.join ", " values in
  Return ("VALUES " ++ values_sql).

Section Fragments.

Variable settings : Settings.

Definition date_extract_sql (lookup_type field_name : string)
  : result string :=
  let lookup_type := dict_get extract_names lookup_type lookup_type in
  PyStr.format "EXTRACT(%s FROM %s)" [lookup_type; field_name].

Definition datetime_extract_sql (lookup_type field_name tzname : string)
  : result string :=
  let tzname := if USE_TZ settings then tzname else "UTC" in
  let lookup_type := dict_get extract_names lookup_type lookup_type in
  PyStr.format
    ("EXTRACT(%s FROM %s AT TIME ZONE " ++ PyStr.dquote ++ "%s"
       ++ PyStr.dquote ++ ")")
    [lookup_type; field_name; tzname].

Definition time_extract_sql (lookup_type field_name : string)
  : result string :=
  PyStr.format
    ("EXTRACT(%s FROM %s AT TIME ZONE " ++ PyStr.dquote ++ "UTC"
       ++ PyStr.dquote ++ ")")
    [lookup_type; field_name].

Definition date_trunc_sql (lookup_type field_name : string)
  : result string :=
  let field_name :=
    if String.eqb lookup_type "week"
    then "DATE_SUB(" ++ field_name ++ ", INTERVAL 1 DAY)"
    else field_name in
  sql <- PyStr.format "DATE_TRUNC(%s, %s)" [field_name; lookup_type] ;;
  let sql :=
    if String.eqb lookup_type "week"
    then "DATE_ADD(" ++ sql ++ ", INTERVAL 1 DAY)"
    else sql in
  Return sql.

Definition datetime_trunc_sql (lookup_type field_name tzname : string)
  : result string :=
  let tzname := if USE_TZ settings then tzname else "UTC" in
  let field_name :=
    if String.eqb lookup_type "week"
    then "TIMESTAMP_SUB(" ++ field_name ++ ", INTERVAL 1 DAY)"
    else field_name in
  sql <- PyStr.format
           ("TIMESTAMP_TRUNC(%s, %s, " ++ PyStr.dquote ++ "%s"
              ++ PyStr.dquote ++ ")")
           [field_name; lookup_type; tzname] ;;
  let sql :=
    if String.eqb lookup_type "week"
    then "TIMESTAMP_ADD(" ++ sql ++ ", INTERVAL 1 DAY)"
    else sql in
  Return sql.

Definition lookup_cast (lookup_type : string) (internal_type : option string)
  : string :=
  if PyStr.in_tuple lookup_type
       [ "contains"; "icontains"; "startswith"; "istartswith";
         "endswith"; "iendswith"; "regex"; "iregex" ]
  then "CAST(%s AS STRING)"
  else "%s".

End Fragments.

(** ** Value adaptation and conversion of [DatabaseOperations] *)

(** [spanner.dbapi.parse_utils.DateStr] and [TimestampStr]: strings tagged
    with the column type they are bound to. *)
Inductive DateStr_t : Type := DateStr (s : string).
Inductive TimestampStr_t : Type := TimestampStr (s : string).

Section Values.

Import PyTime.

Variable tzinfo : Type.
Variable tz_utcoffset : tzinfo -> option (datetime tzinfo) -> option timedelta.
Variable astimezone : datetime tzinfo -> tzinfo -> result (datetime tzinfo).

Variable settings : Settings.

(** The database wrapper behind [self.connection]. *)
Record DatabaseWrapper : Type := { timezone : tzinfo }.

Variable self_connection : DatabaseWrapper.

(** Query expressions: the objects that have [resolve_expression]. *)
Variable Expression : Type.

(** [decimal.Decimal] and [float], with the conversions the module calls:
    [float(d)], [str(f)] and [Decimal(s)]. *)
Variable Decimal : Type.
Variable float : Type.
Variable float_of_Decimal : Decimal -> float.
Variable str_of_float : float -> string.
Variable Decimal_of_str : string -> result Decimal.

(** [uuid.UUID] and its constructor from text. *)
Variable UUID_t : Type.
Variable UUID : string -> result UUID_t.

(** The [expression] and [connection] arguments every converter receives. *)
Variable ColumnExpression : Type.

(** A value bound to a datetime column: a query expression or a
    [datetime]. *)
Inductive datetime_value : Type :=
| IsExpression (e : Expression)
| IsDatetime (v : datetime tzinfo).

Inductive adapted_datetime : Type :=
| PassedThrough (e : Expression)
| Adapted (t : TimestampStr_t).

Definition adapt_datefield_value (value : option date) : option DateStr_t :=
  match value with
  | None => None
  | Some value => Some (DateStr (date_str value))
  end.

Definition adapt_datetimefield_value (value : option datetime_value)
  : result (option adapted_datetime) :=
  match value with
  | None => Return None
  | Some (IsExpression e) => Return (Some (PassedThrough e))
  | Some (IsDatetime value) =>
      value <-
        (if is_aware tz_utcoffset value then
           if USE_TZ settings
           then make_naive tz_utcoffset astimezone value
                  (timezone self_connection)
           else Raise ValueError
         else Return value) ;;
      Return
        (Some (Adapted
                 (TimestampStr
                    (isoformat_microseconds tz_utcoffset value ++ "Z"))))
  end.

Definition adapt_decimalfield_value (value : option Decimal)
    (max_digits decimal_places : option N) : option float :=
  match value with
  | None => None
  | Some value => Some (float_of_Decimal value)
  end.

Definition adapt_timefield_value (value : option (time tzinfo))
  : option TimestampStr_t :=
  match value with
  | None => None
  | Some value =>
      Some (TimestampStr
              ("0001-01-01T"
                 ++ time_isoformat_microseconds tz_utcoffset value ++ "Z"))
  end.

Definition convert_binaryfield_value (value : option (list byte))
    (expression : ColumnExpression) (connection : DatabaseWrapper)
  : result (option (list byte)) :=
  match value with
  | None => Return None
  | Some value => v <- Base64.b64decode value ;; Return (Some v)
  end.

Definition convert_datetimefield_value
    (value : option (DatetimeWithNanoseconds tzinfo))
    (expression : ColumnExpression) (connection : DatabaseWrapper)
  : option (datetime tzinfo) :=
  match value with
  | None => None
  | Some value =>
      let value := as_datetime value in
      Some {| year := year value; month := month value; day := day value;
              hour := hour value; minute := minute value;
              second := second value; microsecond := microsecond value;
              dt_tzinfo := Some (timezone self_connection) |}
  end.

Definition convert_decimalfield_value (value : option float)
    (expression : ColumnExpression) (connection : DatabaseWrapper)
  : result (option Decimal) :=
  match value with
  | None => Return None
  | Some value => d <- Decimal_of_str (str_of_float value) ;; Return (Some d)
  end.

Definition convert_timefield_value
    (value : option (DatetimeWithNanoseconds tzinfo))
    (expression : ColumnExpression) (connection : DatabaseWrapper)
  : option (time tzinfo) :=
  match value with
  | None => None
  | Some value =>
      let value := as_datetime value in
      Some {| time_hour := hour value; time_minute := minute value;
              time_second := second value;
              time_microsecond := microsecond value;
              time_tzinfo := None |}
  end.

Definition convert_uuidfield_value (value : option string)
    (expression : ColumnExpression) (connection : DatabaseWrapper)
  : result (option UUID_t) :=
  match value with
  | Some value => u <- UUID value ;; Return (Some u)
  | None => Return None
  end.

End Values.

Arguments timezone {tzinfo} d.
Arguments IsExpression {tzinfo Expression} e.
Arguments IsDatetime {tzinfo Expression} v.
Arguments PassedThrough {Expression} e.
Arguments Adapted {Expression} t.
Arguments adapt_datetimefield_value {tzinfo} tz_utcoffset astimezone settings
  self_connection {Expression} value.
Arguments adapt_decimalfield_value {Decimal float} float_of_Decimal value
  max_digits decimal_places.
Arguments adapt_timefield_value {tzinfo} tz_utcoffset value.
Arguments convert_binaryfield_value {tzinfo ColumnExpression} value expression
  connection.
Arguments convert_datetimefield_value {tzinfo} self_connection
  {ColumnExpression} value expression connection.
Arguments convert_decimalfield_value {tzinfo Decimal float} str_of_float
  Decimal_of_str {ColumnExpression} value expression connection.
Arguments convert_timefield_value {tzinfo ColumnExpression} value expression
  connection.
Arguments convert_uuidfield_value {tzinfo UUID_t} UUID {ColumnExpression} value
  expression connection.

(** The entries of a converter list: the converters of the base class, and
    the bound methods this class appends. *)
Inductive converter (Inherited : Type) : Type :=
| inherited (c : Inherited)
| DatetimeConverter
| DecimalConverter
| TimeConverter
| BinaryConverter
| UUIDConverter.

Arguments inherited {Inherited} c.
Arguments DatetimeConverter {Inherited}.
Arguments DecimalConverter {Inherited}.
Arguments TimeConverter {Inherited}.
Arguments BinaryConverter {Inherited}.
Arguments UUIDConverter {Inherited}.

(** [get_db_converters], given the list that the base class returns for the
    expression and the internal type of the expression's output field. *)
Definition get_db_converters {Inherited : Type}
    (super_converters : list (converter Inherited)) (internal_type : string)
  : list (converter Inherited) :=
  let converters := super_converters in
  if String.eqb internal_type "DateTimeField"
  then converters ++ [DatetimeConverter]
  else if String.eqb internal_type "DecimalField"
  then converters ++ [DecimalConverter]
  else if String.eqb internal_type "TimeField"
  then converters ++ [TimeConverter]
  else if String.eqb internal_type "BinaryField"
  then converters ++ [BinaryConverter]
  else if String.eqb internal_type "UUIDField"
  then converters ++ [UUIDConverter]
  else converters.

Section Lookups.

(** The operands of a lookup, with Python's [str]. *)
Variable object : Type.
Variable str : object -> string.

(** Lookups that use this method use REGEX_CONTAINS instead of LIKE. *)
Definition prep_for_like_query (x : object) : string :=
  Re.escape (str x).

Definition prep_for_iexact_query : object -> string := prep_for_like_query.

End Lookups.

Arguments prep_for_like_query {object} str x.
Arguments prep_for_iexact_query {object} str x.

End DatabaseOperations.

(** ** Checks by enumeration

    Boolean checks over all numbers below a bound; the bit arithmetic of
    base64 is settled by running them over all bytes. *)

Module Enumeration.

Local Open Scope N_scope.

Definition all_below (k : nat) (P : N -> bool) : bool :=
  forallb P (map N.of_nat (seq 0 k)).

(** The six-bit groups of the bytes [n0 n1] and what the decoder rebuilds
    from them, for a full group and for the two short tails. *)
Definition group_check (n0 n1 : N) : bool :=
  let s0 := N.shiftr n0 2 in
  let s1 := N.lor (N.shiftl (N.land n0 3) 4) (N.shiftr n1 4) in
  let t1 := N.shiftl (N.land n0 3) 4 in
  (s0 <? 64) && (s1 <? 64) && (t1 <? 64)
  && (N.lor (N.shiftl s0 2) (N.shiftr s1 4) =? n0)
  && (N.lor (N.shiftl s0 2) (N.shiftr t1 4) =? n0)
  && (N.land s1 15 =? N.shiftr n1 4)
  && (N.land n0 63 <? 64)
  && (N.lor (N.shiftl (N.land (N.shiftr n0 6) 3) 6) (N.land n0 63) =? n0).

Definition middle_check (n1 n2 : N) : bool :=
  let s2 := N.lor (N.shiftl (N.land n1 15) 2) (N.shiftr n2 6) in
  let t2 := N.shiftl (N.land n1 15) 2 in
  (s2 <? 64) && (t2 <? 64)
  && (N.lor (N.shiftl (N.shiftr n1 4) 4) (N.shiftr s2 2) =? n1)
  && (N.lor (N.shiftl (N.shiftr n1 4) 4) (N.shiftr t2 2) =? n1)
  && (N.land s2 3 =? N.land (N.shiftr n2 6) 3).

End Enumeration.

(** ** The decoder's bookkeeping *)

Module Base64Accounting.

Local Open Scope N_scope.

(** A character of the base64 alphabet. *)
Definition is_alphabet (c : byte) : bool := Base64.table_a2b_base64 c <? 64.

(** With [quad_pos] characters of a group read, the output written for
    them falls short of three quarters of a byte per character by this
    many quarters. *)
Definition debt (quad_pos : N) : nat :=
  match quad_pos with
  | 0 => 0%nat
  | 1 => 3%nat
  | 2 => 2%nat
  | _ => 1%nat
  end.

(** [s.encode('ascii')], to write byte strings down. *)
Definition ascii_bytes (s : string) : list byte :=
  map byte_of_ascii (list_ascii_of_string s).

End Base64Accounting.

Ltac split_checks H :=
  repeat match type of H with
         | (_ && _) = true =>
             let H' := fresh "C" in
             apply andb_true_iff in H; destruct H as [H H']
         end;
  repeat match goal with
         | C : (_ <? _)%N = true |- _ => apply N.ltb_lt in C
         | C : (_ =? _)%N = true |- _ => apply N.eqb_eq in C
         end.

(** ** Reading the numbers of a string *)

Module Digits.

Import Decimal.
Local Open Scope N_scope.

Definition is_digit (c : ascii) : bool :=
  (48 <=? N_of_ascii c) && (N_of_ascii c <=? 57).

Definition digit_value (c : ascii) : N := N_of_ascii c - 48.

(** The numbers written in a string, from left to right: every maximal run
    of digits, read in base ten.  [current] is the run being read. *)
Fixpoint numbers_from (s : string) (current : option N) : list N :=
  match s with
  | EmptyString =>
      match current with
      | Some n => [n]
      | None => []
      end
  | String c rest =>
      if is_digit c then
        let n := match current with Some n => n | None => 0 end in
        numbers_from rest (Some (10 * n + digit_value c))
      else
        match current with
        | Some n => n :: numbers_from rest None
        | None => numbers_from rest None
        end
  end.

Definition numbers (s : string) : list N := numbers_from s None.

(** Reading the digits of [d] after a run whose value is [acc]. *)
Fixpoint read (d : uint) (acc : N) : N :=
  match d with
  | Nil => acc
  | D0 d => read d (10 * acc)
  | D1 d => read d (10 * acc + 1)
  | D2 d => read d (10 * acc + 2)
  | D3 d => read d (10 * acc + 3)
  | D4 d => read d (10 * acc + 4)
  | D5 d => read d (10 * acc + 5)
  | D6 d => read d (10 * acc + 6)
  | D7 d => read d (10 * acc + 7)
  | D8 d => read d (10 * acc + 8)
  | D9 d => read d (10 * acc + 9)
  end.

End Digits.

(** ** Reading an escaped pattern *)

Module Pattern.

(** The literal text an escaped pattern stands for: a backslash makes the
    character after it literal. *)
Fixpoint unescape (pattern : string) : string :=
  match pattern with
  | EmptyString => EmptyString
  | String c rest =>
      if Ascii.eqb c "\" then
        match rest with
        | EmptyString => EmptyString
        | String d rest' => String d (unescape rest')
        end
      else String c (unescape rest)
  end.

(** No special character of the pattern acts as an operator: each one comes
    right after a backslash that escapes it. *)
Fixpoint all_literal (pattern : string) : bool :=
  match pattern with
  | EmptyString => true
  | String c rest =>
      if Ascii.eqb c "\" then
        match rest with
        | EmptyString => false
        | String d rest' => all_literal rest'
        end
      else negb (Re.is_special c) && all_literal rest
  end.

(** The number of special characters of a string. *)
Fixpoint specials (s : string) : nat :=
  match s with
  | EmptyString => O
  | String c rest => (if Re.is_special c then 1 else 0) + specials rest
  end.

(** A string without special characters. *)
Fixpoint plain (s : string) : bool :=
  match s with
  | EmptyString => true
  | String c rest => negb (Re.is_special c) && plain rest
  end.

End Pattern.

(** ** Inputs named by the properties *)

(** The lookup kinds that compare text. *)
Definition text_lookups : list string :=
  [ "contains"; "icontains"; "startswith"; "istartswith";
    "endswith"; "iendswith"; "regex"; "iregex" ].

(** The internal types whose values the module converts. *)
Definition converted_types : list string :=
  [ "DateTimeField"; "DecimalField"; "TimeField"; "BinaryField";
    "UUIDField" ].

(** The zones of [datetime.timezone]: a fixed offset from UTC, in
    microseconds.  [tz_id] tells the objects apart, for Python's [is]. *)
Module FixedOffset.

Import PyTime.

Record timezone : Type := { tz_id : N; offset : timedelta }.

Definition tzinfo : Type := timezone.

Definition tz_utcoffset (tz : tzinfo) (dt : option (datetime tzinfo))
  : option timedelta := Some (offset tz).

(** [timezone.fromutc(dt)] *)
Definition fromutc (tz : tzinfo) (dt : datetime tzinfo)
  : result (datetime tzinfo) :=
  add_timedelta dt (offset tz).

(** [self.astimezone(tz)]: the value itself when [tz] is its own zone,
    otherwise the value moved to UTC and from there to [tz]; each of the
    two moves raises when it leaves the range of [datetime]. *)
Definition astimezone (self : datetime tzinfo) (tz : tzinfo)
  : result (datetime tzinfo) :=
  match dt_tzinfo self with
  | None => Raise Unmodelled
  | Some mytz =>
      let myoffset := offset mytz in
      if N.eqb (tz_id tz) (tz_id mytz) then Return self
      else
        shifted <- add_timedelta self (- myoffset)%Z ;;
        let utc := replace_tzinfo shifted (Some tz) in
        fromutc tz utc
  end.

Definition utc : tzinfo := {| tz_id := 0; offset := 0%Z |}.

(** One hour east of UTC. *)
Definition utc_plus_1 : tzinfo :=
  {| tz_id := 1; offset := 3600000000%Z |}.

(** Three hours west of UTC. *)
Definition utc_minus_3 : tzinfo :=
  {| tz_id := 2; offset := (-10800000000)%Z |}.

(** 0001-01-01 00:00:00 UTC, the first instant a [datetime] can hold. *)
Definition first_instant : datetime tzinfo :=
  {| year := 1; month := 1; day := 1; hour := 0; minute := 0;
     second := 0; microsecond := 0; dt_tzinfo := Some utc |}.

(** 2020-02-03 04:05:06.000007 UTC *)
Definition sample : datetime tzinfo :=
  {| year := 2020; month := 2; day := 3; hour := 4; minute := 5;
     second := 6; microsecond := 7; dt_tzinfo := Some utc |}.

(** The same instant one hour east of UTC: 2020-02-03 05:05:06.000007 *)
Definition sample_plus_1 : datetime tzinfo :=
  {| year := 2020; month := 2; day := 3; hour := 5; minute := 5;
     second := 6; microsecond := 7; dt_tzinfo := Some utc_plus_1 |}.

(** 2020-02-03 04:05:06.000007, without a zone *)
Definition naive_sample : datetime tzinfo :=
  {| year := 2020; month := 2; day := 3; hour := 4; minute := 5;
     second := 6; microsecond := 7; dt_tzinfo := None |}.

(** The value the database returns for [sample], with 89 nanoseconds more. *)
Definition stored_sample : DatetimeWithNanoseconds tzinfo :=
  {| as_datetime := sample; nanosecond := 89 |}.

(** 23:59:58.999999, without a zone *)
Definition naive_time : time tzinfo :=
  {| time_hour := 23; time_minute := 59; time_second := 58;
     time_microsecond := 999999; time_tzinfo := None |}.

End FixedOffset.

(** * Properties *)

(** ** Base64 decoding undoes encoding *)

Module Base64Facts.

Import Base64 Enumeration.
Local Open Scope list_scope.
Local Open Scope N_scope.

Lemma all_below_spec (k : nat) (P : N -> bool) :
  all_below k P = true -> forall n, n < N.of_nat k -> P n = true.
Proof.
  unfold all_below. intros H n Hn.
  rewrite forallb_forall in H. apply H.
  rewrite <- (N2Nat.id n). apply in_map. apply in_seq. lia.
Qed.

Lemma uchar_to_N (b : byte) : uchar (Byte.to_N b) = b.
Proof.
  unfold uchar. pose proof (Byte.to_N_bounded b) as Hb.
  rewrite N.mod_small by lia. now rewrite Byte.of_to_N.
Qed.

Lemma to_N_lt (b : byte) : Byte.to_N b < 256.
Proof. pose proof (Byte.to_N_bounded b). lia. Qed.

Lemma sextet_roundtrip (n : N) :
  n < 64 ->
  Byte.eqb (table_b2a_base64 n) BASE64_PAD = false /\
  table_a2b_base64 (table_b2a_base64 n) = n.
Proof.
  intros Hn.
  pose proof (all_below_spec 64
    (fun n => negb (Byte.eqb (table_b2a_base64 n) BASE64_PAD)
              && (table_a2b_base64 (table_b2a_base64 n) =? n))) as H.
  specialize (H ltac:(vm_compute; reflexivity) n Hn). cbv beta in H.
  apply andb_true_iff in H. destruct H as [H1 H2].
  apply negb_true_iff in H1. apply N.eqb_eq in H2. now split.
Qed.

(** One iteration of the loop on an alphabet character. *)
Lemma loop_alphabet (n : N) (rest : list byte) (quad_pos leftchar pads : N)
    (bin_data : list byte) :
  n < 64 ->
  a2b_base64_loop (table_b2a_base64 n :: rest) quad_pos leftchar pads bin_data =
  match quad_pos with
  | 0 => a2b_base64_loop rest 1 n 0 bin_data
  | 1 =>
      a2b_base64_loop rest 2 (N.land n 15) 0
        (bin_data ++ [uchar (N.lor (N.shiftl leftchar 2) (N.shiftr n 4))])
  | 2 =>
      a2b_base64_loop rest 3 (N.land n 3) 0
        (bin_data ++ [uchar (N.lor (N.shiftl leftchar 4) (N.shiftr n 2))])
  | _ =>
      a2b_base64_loop rest 0 0 0
        (bin_data ++ [uchar (N.lor (N.shiftl leftchar 6) n)])
  end.
Proof.
  intros Hn. destruct (sextet_roundtrip n Hn) as [Hpad Htab].
  cbn [a2b_base64_loop]. rewrite Hpad, Htab.
  replace (64 <=? n) with false by (symmetry; apply N.leb_gt; exact Hn).
  reflexivity.
Qed.

Lemma group_check_all (n0 n1 : N) :
  n0 < 256 -> n1 < 256 -> group_check n0 n1 = true.
Proof.
  intros H0 H1.
  pose proof (all_below_spec 256
    (fun a => all_below 256 (fun b => group_check a b))) as H.
  specialize (H ltac:(vm_compute; reflexivity) n0 H0). cbv beta in H.
  exact (all_below_spec 256 _ H n1 H1).
Qed.

Lemma middle_check_all (n1 n2 : N) :
  n1 < 256 -> n2 < 256 -> middle_check n1 n2 = true.
Proof.
  intros H1 H2.
  pose proof (all_below_spec 256
    (fun a => all_below 256 (fun b => middle_check a b))) as H.
  specialize (H ltac:(vm_compute; reflexivity) n1 H1). cbv beta in H.
  exact (all_below_spec 256 _ H n2 H2).
Qed.

Section GroupBits.

Variables n0 n1 n2 : N.
Hypothesis H0 : n0 < 256.
Hypothesis H1 : n1 < 256.
Hypothesis H2 : n2 < 256.

Let s0 := N.shiftr n0 2.
Let s1 := N.lor (N.shiftl (N.land n0 3) 4) (N.shiftr n1 4).
Let s2 := N.lor (N.shiftl (N.land n1 15) 2) (N.shiftr n2 6).
Let s3 := N.land n2 63.
Let t1 := N.shiftl (N.land n0 3) 4.
Let t2 := N.shiftl (N.land n1 15) 2.

Lemma sextets_lt : s0 < 64 /\ s1 < 64 /\ s2 < 64 /\ s3 < 64.
Proof using H0 H1 H2.
  pose proof (group_check_all n0 n1 H0 H1) as G.
  pose proof (middle_check_all n1 n2 H1 H2) as M.
  pose proof (group_check_all n2 n2 H2 H2) as G2.
  unfold group_check in G, G2. unfold middle_check in M.
  cbv zeta in G, G2, M. split_checks G. split_checks M. split_checks G2.
  subst s0 s1 s2 s3. repeat split; assumption.
Qed.

Lemma tails_lt : t1 < 64 /\ t2 < 64.
Proof using H0 H1.
  pose proof (group_check_all n0 n1 H0 H1) as G.
  pose proof (middle_check_all n1 n1 H1 H1) as M.
  unfold group_check in G. unfold middle_check in M.
  cbv zeta in G, M. split_checks G. split_checks M.
  subst t1 t2. split; assumption.
Qed.

Lemma first_byte : N.lor (N.shiftl s0 2) (N.shiftr s1 4) = n0.
Proof using H0 H1.
  pose proof (group_check_all n0 n1 H0 H1) as G.
  unfold group_check in G. cbv zeta in G. split_checks G. assumption.
Qed.

Lemma first_byte_tail : N.lor (N.shiftl s0 2) (N.shiftr t1 4) = n0.
Proof using H0.
  pose proof (group_check_all n0 n0 H0 H0) as G.
  unfold group_check in G. cbv zeta in G. split_checks G. assumption.
Qed.

Lemma second_byte :
  N.lor (N.shiftl (N.land s1 15) 4) (N.shiftr s2 2) = n1.
Proof using H0 H1 H2.
  pose proof (group_check_all n0 n1 H0 H1) as G.
  pose proof (middle_check_all n1 n2 H1 H2) as M.
  unfold group_check in G. unfold middle_check in M.
  cbv zeta in G, M. split_checks G. split_checks M.
  subst s1 s2. congruence.
Qed.

Lemma second_byte_tail :
  N.lor (N.shiftl (N.land s1 15) 4) (N.shiftr t2 2) = n1.
Proof using H0 H1.
  pose proof (group_check_all n0 n1 H0 H1) as G.
  pose proof (middle_check_all n1 n1 H1 H1) as M.
  unfold group_check in G. unfold middle_check in M.
  cbv zeta in G, M. split_checks G. split_checks M.
  subst s1 t2. congruence.
Qed.

Lemma third_byte : N.lor (N.shiftl (N.land s2 3) 6) s3 = n2.
Proof using H1 H2.
  pose proof (middle_check_all n1 n2 H1 H2) as M.
  pose proof (group_check_all n2 n2 H2 H2) as G.
  unfold group_check in G. unfold middle_check in M.
  cbv zeta in G, M. split_checks G. split_checks M.
  subst s2 s3. congruence.
Qed.

End GroupBits.

Lemma decode_encode_loop (n : nat) :
  forall (s bin_data : list byte),
    (length s <= n)%nat ->
    a2b_base64_loop (b64encode s) 0 0 0 bin_data = Return (bin_data ++ s).
Proof.
  induction n as [n IH] using lt_wf_ind.
  intros s bin_data Hlen.
  destruct s as [|b0 [|b1 [|b2 rest]]].
  - cbn. now rewrite app_nil_r.
  - destruct (sextets_lt _ _ _ (to_N_lt b0) (to_N_lt b0) (to_N_lt b0))
      as (L0 & _).
    destruct (tails_lt _ _ (to_N_lt b0) (to_N_lt b0)) as (T1 & _).
    cbn [b64encode]. cbv zeta.
    do 2 (rewrite loop_alphabet by assumption).
    rewrite (first_byte_tail _ (to_N_lt b0)), uchar_to_N.
    reflexivity.
  - destruct (sextets_lt _ _ _ (to_N_lt b0) (to_N_lt b1) (to_N_lt b1))
      as (L0 & L1 & _).
    destruct (tails_lt _ _ (to_N_lt b0) (to_N_lt b1)) as (_ & T2).
    cbn [b64encode]. cbv zeta.
    do 3 (rewrite loop_alphabet by assumption).
    rewrite (first_byte _ _ (to_N_lt b0) (to_N_lt b1)).
    rewrite (second_byte_tail _ _ (to_N_lt b0) (to_N_lt b1)).
    rewrite !uchar_to_N, <- app_assoc. reflexivity.
  - destruct (sextets_lt _ _ _ (to_N_lt b0) (to_N_lt b1) (to_N_lt b2))
      as (L0 & L1 & L2 & L3).
    cbn [b64encode]. cbv zeta.
    do 4 (rewrite loop_alphabet by assumption).
    rewrite (first_byte _ _ (to_N_lt b0) (to_N_lt b1)).
    rewrite (second_byte _ _ _ (to_N_lt b0) (to_N_lt b1) (to_N_lt b2)).
    rewrite (third_byte _ _ (to_N_lt b1) (to_N_lt b2)).
    rewrite !uchar_to_N.
    cbn [length] in Hlen.
    rewrite (IH (length rest)) by lia.
    rewrite <- !app_assoc. reflexivity.
Qed.

Theorem b64decode_b64encode (b : list byte) :
  b64decode (b64encode b) = Return b.
Proof.
  unfold b64decode, a2b_base64.
  now rewrite (decode_encode_loop (length b)).
Qed.

End Base64Facts.

(** ** Facts about string formatting *)

Module FormatFacts.

Import PyStr.

Lemma append_empty_r (s : string) : s ++ EmptyString = s.
Proof.
  induction s as [|c s IH]; cbn; [reflexivity | now rewrite IH].
Qed.

Lemma append_assoc (s t u : string) : (s ++ t) ++ u = s ++ t ++ u.
Proof.
  induction s as [|c s IH]; cbn; [reflexivity | now rewrite IH].
Qed.

Lemma fmap_fmap {A B C : Type} (f : A -> B) (g : B -> C) (m : result A) :
  fmap g (fmap f m) = fmap (fun a => g (f a)) m.
Proof. destruct m; reflexivity. Qed.

(** Text without [%] is copied to the output as it stands. *)
Lemma format_percent_free (p tmpl : string) (args : list string) :
  percent_free p = true ->
  format (p ++ tmpl) args = fmap (append p) (format tmpl args).
Proof.
  induction p as [|c p IH]; cbn [percent_free append]; intros Hp.
  - destruct (format tmpl args); reflexivity.
  - apply andb_true_iff in Hp. destruct Hp as [Hc Hp].
    apply negb_true_iff in Hc.
    cbn [format]. rewrite Hc, (IH Hp), fmap_fmap. reflexivity.
Qed.

(** A literal character other than [%] is copied too. *)
Lemma format_literal (c : ascii) (tmpl : string) (args : list string) :
  Ascii.eqb c "%" = false ->
  format (String c tmpl) args = fmap (String c) (format tmpl args).
Proof. intros Hc. cbn [format]. now rewrite Hc. Qed.

Lemma comprehension_total {A B : Type} (f : A -> result B) (g : A -> B)
    (l : list A) :
  (forall a, f a = Return (g a)) ->
  comprehension f l = Return (map g l).
Proof.
  intros Hf. induction l as [|a l IH]; cbn; [reflexivity|].
  now rewrite Hf, IH.
Qed.

End FormatFacts.

(** ** Mass delete *)

Section SqlFlush.

Import PyStr FormatFacts DatabaseOperations.

Variable escape_name : string -> string.

(** Whenever the style leaves no [%] in its keywords, [sql_flush] returns
    one statement per table, in the order of the tables, and each
    statement ends with the quoted table name. *)
Lemma sql_flush_statements (style : Style) (tables sequences : list string)
    (allow_cascade : bool) :
  percent_free (SQL_KEYWORD style "DELETE") = true ->
  percent_free (SQL_KEYWORD style "FROM") = true ->
  sql_flush escape_name style tables sequences allow_cascade =
  Return
    (map (fun table =>
            SQL_KEYWORD style "DELETE" ++ " " ++ SQL_KEYWORD style "FROM"
              ++ " " ++ SQL_FIELD style (escape_name table))
         tables).
Proof.
  intros HD HF. unfold sql_flush.
  destruct tables as [|t ts]; [reflexivity|].
  set (l := t :: ts). cbn [format bind fmap Ascii.eqb Bool.eqb].
  apply comprehension_total. intros table.
  rewrite (format_percent_free _ _ _ HD).
  rewrite format_literal by reflexivity.
  rewrite (format_percent_free _ _ _ HF).
  cbn. unfold quote_name. now rewrite append_empty_r.
Qed.

End SqlFlush.

(** C1.  [sql_flush] builds each statement as DELETE FROM followed by the
    quoted table name and stops there: for the tables [a] and [b] under
    [no_style] it returns exactly two statements, in the order of the
    tables, and with a quoting function that leaves plain names alone
    neither statement contains the word WHERE; the empty list of tables
    gives the empty list of statements. *)
Theorem sql_flush_emits_no_where_clause (escape_name : string -> string) :
  DatabaseOperations.sql_flush escape_name no_style ["a"; "b"] [] false =
    Return ["DELETE FROM " ++ escape_name "a";
            "DELETE FROM " ++ escape_name "b"]
  /\ DatabaseOperations.sql_flush (fun name => name) no_style ["a"; "b"] []
       false = Return ["DELETE FROM a"; "DELETE FROM b"]
  /\ PyStr.contains "WHERE" "DELETE FROM a" = false
  /\ PyStr.contains "WHERE" "DELETE FROM b" = false
  /\ DatabaseOperations.sql_flush escape_name no_style [] [] false = Return [].
Proof.
  split.
  - rewrite sql_flush_statements by reflexivity. reflexivity.
  - repeat split; reflexivity.
Qed.

(** ** Extraction *)

(** C2, as stated, fails: for the unit [week_day] the time extraction
    fragment keeps the name [week_day], where the synonym table would give
    [dayofweek]. *)
Lemma time_extract_sql_keeps_week_day :
  DatabaseOperations.time_extract_sql "week_day" "col" =
    Return ("EXTRACT(week_day FROM col AT TIME ZONE " ++ PyStr.dquote ++ "UTC"
              ++ PyStr.dquote ++ ")")
  /\ DatabaseOperations.time_extract_sql "week_day" "col" <>
       Return ("EXTRACT("
                 ++ dict_get DatabaseOperations.extract_names "week_day"
                      "week_day"
                 ++ " FROM col AT TIME ZONE " ++ PyStr.dquote ++ "UTC"
                 ++ PyStr.dquote ++ ")").
Proof. split; [reflexivity | discriminate]. Qed.

(** C2, amended.  For every unit name [u] and field reference [f],
    [time_extract_sql u f] emits [u] as it is given, without translating it
    through the synonym table, and always names the time zone UTC: the
    function does not read the settings, so the time-zone flag cannot
    change the fragment. *)
Theorem time_extract_sql_forces_utc (u f : string) :
  DatabaseOperations.time_extract_sql u f =
    Return ("EXTRACT(" ++ u ++ " FROM " ++ f ++ " AT TIME ZONE "
              ++ PyStr.dquote ++ "UTC" ++ PyStr.dquote ++ ")").
Proof. reflexivity. Qed.

(** C6.  For every field reference [col], extracting [week_day] from a date
    yields EXTRACT(dayofweek FROM col), and for every unit that is not a key
    of the synonym table the fragment is EXTRACT(unit FROM col) with the
    unit unchanged. *)
Theorem date_extract_sql_units (unit col : string) :
  DatabaseOperations.date_extract_sql "week_day" col =
    Return ("EXTRACT(dayofweek FROM " ++ col ++ ")")
  /\ (~ In unit (dict_keys DatabaseOperations.extract_names) ->
      DatabaseOperations.date_extract_sql unit col =
        Return ("EXTRACT(" ++ unit ++ " FROM " ++ col ++ ")")).
Proof.
  split; [reflexivity|].
  intros Hunit. unfold DatabaseOperations.date_extract_sql.
  replace (dict_get DatabaseOperations.extract_names unit unit) with unit;
    [reflexivity|].
  cbn [dict_get DatabaseOperations.extract_names dict_keys map fst In]
    in Hunit |- *.
  repeat match goal with
         | |- context [String.eqb ?k unit] =>
             destruct (String.eqb_spec k unit) as [E|_];
             [exfalso; apply Hunit; rewrite E; tauto|]
         end.
  reflexivity.
Qed.

Lemma date_extract_sql_units_witness :
  DatabaseOperations.date_extract_sql "week_day" "col" =
    Return "EXTRACT(dayofweek FROM col)"
  /\ DatabaseOperations.date_extract_sql "day" "col" =
       Return "EXTRACT(day FROM col)".
Proof.
  split.
  - exact (proj1 (date_extract_sql_units "day" "col")).
  - apply (proj2 (date_extract_sql_units "day" "col")).
    cbn. intros [H|[H|[H|[]]]]; discriminate H.
Defined.

(** ** Truncation *)

Lemma format_date_trunc (a b : string) :
  PyStr.format "DATE_TRUNC(%s, %s)" [a; b] =
  Return ("DATE_TRUNC(" ++ a ++ ", " ++ b ++ ")").
Proof. reflexivity. Qed.

Lemma format_timestamp_trunc (a b c : string) :
  PyStr.format
    ("TIMESTAMP_TRUNC(%s, %s, " ++ PyStr.dquote ++ "%s" ++ PyStr.dquote ++ ")")
    [a; b; c] =
  Return ("TIMESTAMP_TRUNC(" ++ a ++ ", " ++ b ++ ", " ++ PyStr.dquote ++ c
            ++ PyStr.dquote ++ ")").
Proof. reflexivity. Qed.

(** C4.  Truncating to the week subtracts one day from the field reference
    before the truncation call and adds one day to its result, as nested
    SQL function calls, for dates and for datetimes alike; for every other
    unit the truncation call is applied to the field reference directly. *)
Theorem trunc_sql_shifts_only_week (settings : Settings)
    (unit f tzname : string) :
  let tz := if USE_TZ settings then tzname else "UTC" in
  DatabaseOperations.date_trunc_sql "week" f =
    Return ("DATE_ADD(DATE_TRUNC(DATE_SUB(" ++ f
              ++ ", INTERVAL 1 DAY), week), INTERVAL 1 DAY)")
  /\ DatabaseOperations.datetime_trunc_sql settings "week" f tzname =
       Return ("TIMESTAMP_ADD(TIMESTAMP_TRUNC(TIMESTAMP_SUB(" ++ f
                 ++ ", INTERVAL 1 DAY), week, " ++ PyStr.dquote ++ tz
                 ++ PyStr.dquote ++ "), INTERVAL 1 DAY)")
  /\ (unit <> "week" ->
      DatabaseOperations.date_trunc_sql unit f =
        Return ("DATE_TRUNC(" ++ f ++ ", " ++ unit ++ ")")
      /\ DatabaseOperations.datetime_trunc_sql settings unit f tzname =
           Return ("TIMESTAMP_TRUNC(" ++ f ++ ", " ++ unit ++ ", "
                     ++ PyStr.dquote ++ tz ++ PyStr.dquote ++ ")")).
Proof.
  cbv zeta.
  unfold DatabaseOperations.date_trunc_sql,
    DatabaseOperations.datetime_trunc_sql.
  generalize (if USE_TZ settings then tzname else "UTC"). intros tz.
  split; [|split].
  - rewrite String.eqb_refl, format_date_trunc. cbn [bind].
    rewrite !FormatFacts.append_assoc. reflexivity.
  - rewrite String.eqb_refl, format_timestamp_trunc. cbn [bind].
    rewrite !FormatFacts.append_assoc. reflexivity.
  - intros Hunit. apply String.eqb_neq in Hunit. rewrite Hunit.
    rewrite format_date_trunc, format_timestamp_trunc. split; reflexivity.
Qed.

Lemma trunc_sql_shifts_only_week_witness :
  DatabaseOperations.date_trunc_sql "month" "col" =
    Return "DATE_TRUNC(col, month)"
  /\ DatabaseOperations.datetime_trunc_sql {| USE_TZ := false |} "month" "col"
       "Europe/Paris" =
       Return ("TIMESTAMP_TRUNC(col, month, " ++ PyStr.dquote ++ "UTC"
                 ++ PyStr.dquote ++ ")").
Proof.
  apply (proj2 (proj2 (trunc_sql_shifts_only_week {| USE_TZ := false |}
                         "month" "col" "Europe/Paris"))).
  discriminate.
Defined.

(** ** Lookup casts *)

Lemma in_tuple_In (x : string) (t : list string) :
  PyStr.in_tuple x t = true <-> In x t.
Proof.
  unfold PyStr.in_tuple. rewrite existsb_exists. split.
  - intros (y & Hy & E). apply String.eqb_eq in E. now subst y.
  - intros H. exists x. split; [exact H | apply String.eqb_refl].
Qed.

(** C7.  For the eight text lookups [lookup_cast] returns the fragment that
    casts its operand to a string, and for every other lookup kind it
    returns the identity fragment, which renders a column reference as
    itself. *)
Theorem lookup_cast_text_lookups (lookup_type : string)
    (internal_type : option string) (col : string) :
  (In lookup_type text_lookups ->
   DatabaseOperations.lookup_cast lookup_type internal_type =
     "CAST(%s AS STRING)")
  /\ (~ In lookup_type text_lookups ->
      DatabaseOperations.lookup_cast lookup_type internal_type = "%s"
      /\ PyStr.format
           (DatabaseOperations.lookup_cast lookup_type internal_type) [col] =
           Return col).
Proof.
  unfold DatabaseOperations.lookup_cast. fold text_lookups.
  destruct (PyStr.in_tuple lookup_type text_lookups) eqn:E.
  - apply in_tuple_In in E. split; [reflexivity | contradiction].
  - split.
    + intros H. apply in_tuple_In in H. congruence.
    + intros _. split; [reflexivity|].
      cbn. now rewrite FormatFacts.append_empty_r.
Qed.

Lemma lookup_cast_text_lookups_witness :
  DatabaseOperations.lookup_cast "contains" None = "CAST(%s AS STRING)"
  /\ DatabaseOperations.lookup_cast "exact" None = "%s"
  /\ PyStr.format (DatabaseOperations.lookup_cast "exact" None) ["col"] =
       Return "col".
Proof.
  split.
  - apply (proj1 (lookup_cast_text_lookups "contains" None "col")).
    cbn. tauto.
  - apply (proj2 (lookup_cast_text_lookups "exact" None "col")).
    cbn. intros H.
    repeat (destruct H as [H|H]; [discriminate H|]). exact H.
Defined.

(** ** Values *)

Section ValueProperties.

Import PyTime DatabaseOperations.

Variable tzinfo : Type.
Variable tz_utcoffset : tzinfo -> option (datetime tzinfo) -> option timedelta.
Variable astimezone : datetime tzinfo -> tzinfo -> result (datetime tzinfo).
Variable settings : Settings.
Variable self_connection : DatabaseWrapper tzinfo.
Variable Expression : Type.

Lemma utcoffset_replace_tzinfo_None (value : datetime tzinfo) :
  utcoffset tz_utcoffset (replace_tzinfo_None value) = None.
Proof. reflexivity. Qed.

Lemma is_naive_is_aware (value : datetime tzinfo) :
  is_naive tz_utcoffset value = negb (is_aware tz_utcoffset value).
Proof.
  unfold is_naive, is_aware.
  now destruct (utcoffset tz_utcoffset value).
Qed.

(** A naive [datetime] renders without an offset. *)
Lemma isoformat_microseconds_naive (value : datetime tzinfo) :
  utcoffset tz_utcoffset value = None ->
  isoformat_microseconds tz_utcoffset value =
  zpad 4 (year value) ++ "-" ++ zpad 2 (month value) ++ "-"
    ++ zpad 2 (day value) ++ "T" ++ zpad 2 (hour value) ++ ":"
    ++ zpad 2 (minute value) ++ ":" ++ zpad 2 (second value) ++ "."
    ++ zpad 6 (microsecond value).
Proof.
  intros Hoff. unfold isoformat_microseconds, format_time_microseconds.
  rewrite Hoff. cbn [format_offset].
  rewrite !FormatFacts.append_assoc, FormatFacts.append_empty_r.
  reflexivity.
Qed.

(** C3, amended.  For every timezone-aware [datetime] (a value that is not
    a query expression): with [USE_TZ] off, adapting it raises [ValueError];
    with [USE_TZ] on, adapting it does what the move to the connection's
    time zone does.  If the move succeeds, the result is the moved value
    stripped of its zone, rendered as ISO 8601 with six fractional digits
    and a trailing Z; if the move raises, as it does with [OverflowError]
    when the result leaves the range of [datetime], that exception comes
    out.  So whenever the move does not itself raise [ValueError], adapting
    raises [ValueError] exactly when [USE_TZ] is off. *)
Theorem adapt_datetimefield_value_aware (value : datetime tzinfo) :
  is_aware tz_utcoffset value = true ->
  let adapted :=
    adapt_datetimefield_value tz_utcoffset astimezone settings
      self_connection (Expression := Expression)
      (Some (IsDatetime value)) in
  let moved := astimezone value (timezone self_connection) in
  (USE_TZ settings = false -> adapted = Raise ValueError)
  /\ (forall local,
        USE_TZ settings = true -> moved = Return local ->
        adapted =
          Return
            (Some
               (Adapted
                  (TimestampStr
                     (zpad 4 (year local) ++ "-" ++ zpad 2 (month local)
                        ++ "-" ++ zpad 2 (day local) ++ "T"
                        ++ zpad 2 (hour local) ++ ":"
                        ++ zpad 2 (minute local) ++ ":"
                        ++ zpad 2 (second local) ++ "."
                        ++ zpad 6 (microsecond local) ++ "Z")))))
  /\ (forall e,
        USE_TZ settings = true -> moved = Raise e -> adapted = Raise e)
  /\ (moved <> Raise ValueError ->
      (adapted = Raise ValueError <-> USE_TZ settings = false)).
Proof.
  intros Haware. cbv zeta. unfold adapt_datetimefield_value.
  rewrite Haware. unfold make_naive.
  rewrite is_naive_is_aware, Haware. cbn [negb].
  destruct (USE_TZ settings).
  - split; [discriminate|].
    destruct (astimezone value (timezone self_connection)) as [local|e];
      cbn [bind].
    + split; [|split].
      * intros local' _ H. injection H as <-.
        rewrite isoformat_microseconds_naive
          by apply utcoffset_replace_tzinfo_None.
        cbn [replace_tzinfo_None year month day hour minute second
               microsecond].
        rewrite !FormatFacts.append_assoc. reflexivity.
      * intros e _ H. discriminate H.
      * intros _. split; discriminate.
    + split; [|split].
      * intros local _ H. discriminate H.
      * intros e' _ H. injection H as <-. reflexivity.
      * intros Hne. split; [|discriminate].
        intros H. injection H as ->. contradiction.
  - cbn [bind]. split; [reflexivity|]. split; [|split].
    + discriminate.
    + discriminate.
    + intros _. split; reflexivity.
Qed.

Variable Decimal : Type.
Variable float : Type.
Variable float_of_Decimal : Decimal -> float.
Variable str_of_float : float -> string.
Variable Decimal_of_str : string -> result Decimal.
Variable UUID_t : Type.
Variable UUID : string -> result UUID_t.
Variable ColumnExpression : Type.

(** C5.  Every adapter of an outgoing value maps [None] to [None], and
    every converter of an incoming value (datetime, decimal, time, binary,
    UUID) maps [None] to [None], whatever the conversion functions of the
    field kind are: they are not called. *)
Theorem none_passes_through (max_digits decimal_places : option N)
    (expression : ColumnExpression) (connection : DatabaseWrapper tzinfo) :
  adapt_datefield_value None = None
  /\ adapt_datetimefield_value tz_utcoffset astimezone settings
       self_connection (Expression := Expression) None = Return None
  /\ adapt_decimalfield_value float_of_Decimal None max_digits
       decimal_places = None
  /\ adapt_timefield_value tz_utcoffset None = None
  /\ convert_binaryfield_value None expression connection = Return None
  /\ convert_datetimefield_value self_connection None expression connection
     = None
  /\ convert_decimalfield_value str_of_float Decimal_of_str None expression
       connection = Return None
  /\ convert_timefield_value (tzinfo := tzinfo) None expression connection
     = None
  /\ convert_uuidfield_value UUID None expression connection = Return None.
Proof. repeat split. Qed.

(** C9.  For every byte sequence [b], the converter of binary fields
    applied to the base64 encoding of [b] returns exactly [b]. *)
Theorem convert_binaryfield_value_b64encode (b : list byte)
    (expression : ColumnExpression) (connection : DatabaseWrapper tzinfo) :
  convert_binaryfield_value (Some (Base64.b64encode b)) expression
    connection = Return (Some b).
Proof.
  unfold convert_binaryfield_value.
  now rewrite Base64Facts.b64decode_b64encode.
Qed.

End ValueProperties.

Lemma adapt_datetimefield_value_aware_witness :
  DatabaseOperations.adapt_datetimefield_value FixedOffset.tz_utcoffset
    FixedOffset.astimezone {| USE_TZ := false |}
    {| DatabaseOperations.timezone := FixedOffset.utc_plus_1 |}
    (Expression := Empty_set)
    (Some (DatabaseOperations.IsDatetime FixedOffset.sample)) =
    Raise ValueError
  /\ DatabaseOperations.adapt_datetimefield_value FixedOffset.tz_utcoffset
       FixedOffset.astimezone {| USE_TZ := true |}
       {| DatabaseOperations.timezone := FixedOffset.utc_plus_1 |}
       (Expression := Empty_set)
       (Some (DatabaseOperations.IsDatetime FixedOffset.sample)) =
       Return
         (Some
            (DatabaseOperations.Adapted
               (DatabaseOperations.TimestampStr
                  "2020-02-03T05:05:06.000007Z")))
  /\ DatabaseOperations.adapt_datetimefield_value FixedOffset.tz_utcoffset
       FixedOffset.astimezone {| USE_TZ := true |}
       {| DatabaseOperations.timezone := FixedOffset.utc_minus_3 |}
       (Expression := Empty_set)
       (Some (DatabaseOperations.IsDatetime FixedOffset.first_instant)) =
       Raise OverflowError.
Proof.
  split; [|split].
  - apply (proj1 (adapt_datetimefield_value_aware FixedOffset.tzinfo
                    FixedOffset.tz_utcoffset FixedOffset.astimezone
                    {| USE_TZ := false |}
                    {| DatabaseOperations.timezone :=
                         FixedOffset.utc_plus_1 |}
                    Empty_set FixedOffset.sample eq_refl)).
    reflexivity.
  - exact (proj1 (proj2 (adapt_datetimefield_value_aware FixedOffset.tzinfo
                    FixedOffset.tz_utcoffset FixedOffset.astimezone
                    {| USE_TZ := true |}
                    {| DatabaseOperations.timezone :=
                         FixedOffset.utc_plus_1 |}
                    Empty_set FixedOffset.sample eq_refl))
             FixedOffset.sample_plus_1 eq_refl eq_refl).
  - apply (proj1 (proj2 (proj2
             (adapt_datetimefield_value_aware FixedOffset.tzinfo
                FixedOffset.tz_utcoffset FixedOffset.astimezone
                {| USE_TZ := true |}
                {| DatabaseOperations.timezone :=
                     FixedOffset.utc_minus_3 |}
                Empty_set FixedOffset.first_instant eq_refl)))).
    + reflexivity.
    + reflexivity.
Defined.

(** C3, as stated, fails: 0001-01-01 00:00:00 UTC is timezone-aware, and
    with [USE_TZ] on and a connection three hours west of UTC adapting it
    does not succeed: moving it to the connection's zone leaves the range
    of [datetime], and [OverflowError] comes out. *)
Lemma adapt_datetimefield_value_aware_overflow :
  PyTime.is_aware FixedOffset.tz_utcoffset FixedOffset.first_instant = true
  /\ DatabaseOperations.adapt_datetimefield_value FixedOffset.tz_utcoffset
       FixedOffset.astimezone {| USE_TZ := true |}
       {| DatabaseOperations.timezone := FixedOffset.utc_minus_3 |}
       (Expression := Empty_set)
       (Some (DatabaseOperations.IsDatetime FixedOffset.first_instant)) =
       Raise OverflowError.
Proof. split; reflexivity. Qed.

(** * Further properties of the module *)

(** ** Statements *)

(** X1.  Under a style whose keywords contain no percent sign, [sql_flush]
    returns exactly one statement per table, in the order of the tables:
    the two keywords followed by the styled, quoted table name.  The table
    names are arguments of the formatting, so a percent sign in a name is
    copied, not interpreted, and neither [sequences] nor [allow_cascade]
    changes the result. *)
Theorem sql_flush_one_statement_per_table (escape_name : string -> string)
    (style : Style) (tables sequences : list string) (allow_cascade : bool) :
  PyStr.percent_free (SQL_KEYWORD style "DELETE") = true ->
  PyStr.percent_free (SQL_KEYWORD style "FROM") = true ->
  exists statements,
    DatabaseOperations.sql_flush escape_name style tables sequences
      allow_cascade = Return statements
    /\ length statements = length tables
    /\ statements =
         map (fun table =>
                SQL_KEYWORD style "DELETE" ++ " " ++ SQL_KEYWORD style "FROM"
                  ++ " " ++ SQL_FIELD style (escape_name table))
             tables.
Proof.
  intros HD HF. eexists. split; [|split].
  - apply sql_flush_statements; assumption.
  - now rewrite length_map.
  - reflexivity.
Qed.

Lemma sql_flush_one_statement_per_table_witness :
  exists statements,
    DatabaseOperations.sql_flush (fun name => name) no_style ["a%s"; "b"]
      ["seq"] true = Return statements
    /\ length statements = 2%nat
    /\ statements = ["DELETE FROM a%s"; "DELETE FROM b"].
Proof.
  exact (sql_flush_one_statement_per_table (fun name => name) no_style
           ["a%s"; "b"] ["seq"] true eq_refl eq_refl).
Defined.

Lemma format_parenthesised (sql : string) :
  PyStr.format "(%s)" [sql] = Return ("(" ++ sql ++ ")").
Proof. reflexivity. Qed.

Lemma join_app (sep : string) (l1 l2 : list string) :
  l1 <> [] -> l2 <> [] ->
  PyStr.join sep (l1 ++ l2) = PyStr.join sep l1 ++ sep ++ PyStr.join sep l2.
Proof.
  intros H1 H2. induction l1 as [|x l1 IH]; [contradiction|].
  destruct l1 as [|y l1].
  - destruct l2 as [|z l2]; [contradiction | reflexivity].
  - change (PyStr.join sep ((x :: y :: l1) ++ l2))
      with (x ++ sep ++ PyStr.join sep ((y :: l1) ++ l2)).
    rewrite IH by discriminate.
    change (PyStr.join sep (x :: y :: l1))
      with (x ++ sep ++ PyStr.join sep (y :: l1)).
    now rewrite !FormatFacts.append_assoc.
Qed.

Lemma bulk_insert_sql_closed (fields : list string)
    (placeholder_rows : list (list string)) :
  DatabaseOperations.bulk_insert_sql fields placeholder_rows =
  Return
    ("VALUES "
       ++ PyStr.join ", "
            (map (fun row => "(" ++ PyStr.join ", " row ++ ")")
                 placeholder_rows)).
Proof.
  unfold DatabaseOperations.bulk_insert_sql.
  rewrite (FormatFacts.comprehension_total _
             (fun sql => "(" ++ sql ++ ")") _ format_parenthesised).
  cbn [bind]. now rewrite map_map.
Qed.

(** X2.  [bulk_insert_sql] never raises: it returns VALUES followed by the
    rows in the order given, each row its placeholders joined by a comma
    and a space and wrapped in parentheses, the rows joined the same way.
    Placeholders are copied as they are, percent signs included, and the
    [fields] argument plays no part. *)
Theorem bulk_insert_sql_values (fields : list string)
    (placeholder_rows : list (list string)) :
  DatabaseOperations.bulk_insert_sql fields placeholder_rows =
  Return
    ("VALUES "
       ++ PyStr.join ", "
            (map (fun row => "(" ++ PyStr.join ", " row ++ ")")
                 placeholder_rows)).
Proof. apply bulk_insert_sql_closed. Qed.

(** X3.  Inserting two non-empty batches of rows at once gives the fragment
    of the first batch, a comma and a space, and the row groups of the
    second batch: rows keep their order and none is merged or dropped. *)
Theorem bulk_insert_sql_app (fields : list string)
    (rows1 rows2 : list (list string)) :
  rows1 <> [] -> rows2 <> [] ->
  exists sql1 sql2,
    DatabaseOperations.bulk_insert_sql fields rows1 = Return sql1
    /\ DatabaseOperations.bulk_insert_sql fields rows2 =
         Return ("VALUES " ++ sql2)
    /\ DatabaseOperations.bulk_insert_sql fields (rows1 ++ rows2) =
         Return (sql1 ++ ", " ++ sql2).
Proof.
  intros H1 H2. rewrite !bulk_insert_sql_closed.
  eexists. eexists. split; [reflexivity|]. split; [reflexivity|].
  rewrite map_app, join_app.
  - now rewrite !FormatFacts.append_assoc.
  - destruct rows1; [contradiction | discriminate].
  - destruct rows2; [contradiction | discriminate].
Qed.

Lemma bulk_insert_sql_app_witness :
  exists sql1 sql2,
    DatabaseOperations.bulk_insert_sql ["id"; "name"] [["%s"; "%s"]] =
      Return sql1
    /\ DatabaseOperations.bulk_insert_sql ["id"; "name"]
         [["%s"; "DEFAULT"]; []] = Return ("VALUES " ++ sql2)
    /\ DatabaseOperations.bulk_insert_sql ["id"; "name"]
         ([["%s"; "%s"]] ++ [["%s"; "DEFAULT"]; []]) =
         Return (sql1 ++ ", " ++ sql2).
Proof.
  apply (bulk_insert_sql_app ["id"; "name"] [["%s"; "%s"]]
           [["%s"; "DEFAULT"]; []]); discriminate.
Defined.

(** ** Extraction and casts *)

Lemma format_extract_at_time_zone (a b c : string) :
  PyStr.format
    ("EXTRACT(%s FROM %s AT TIME ZONE " ++ PyStr.dquote ++ "%s"
       ++ PyStr.dquote ++ ")")
    [a; b; c] =
  Return ("EXTRACT(" ++ a ++ " FROM " ++ b ++ " AT TIME ZONE "
            ++ PyStr.dquote ++ c ++ PyStr.dquote ++ ")").
Proof. reflexivity. Qed.

(** A translated unit is never a key of the synonym table. *)
Lemma extract_names_translated (unit : string) :
  ~ In (dict_get DatabaseOperations.extract_names unit unit)
      (dict_keys DatabaseOperations.extract_names).
Proof.
  cbn [dict_get DatabaseOperations.extract_names dict_keys map fst].
  destruct (String.eqb_spec "week_day" unit) as [E1|N1];
    [cbn; intros [H|[H|[H|[]]]]; discriminate H|].
  destruct (String.eqb_spec "iso_week" unit) as [E2|N2];
    [cbn; intros [H|[H|[H|[]]]]; discriminate H|].
  destruct (String.eqb_spec "iso_year" unit) as [E3|N3];
    [cbn; intros [H|[H|[H|[]]]]; discriminate H|].
  cbn. intros [H|[H|[H|[]]]]; congruence.
Qed.

Lemma datetime_extract_sql_closed (settings : Settings)
    (unit f tzname : string) :
  DatabaseOperations.datetime_extract_sql settings unit f tzname =
  Return ("EXTRACT(" ++ dict_get DatabaseOperations.extract_names unit unit
            ++ " FROM " ++ f ++ " AT TIME ZONE " ++ PyStr.dquote
            ++ (if USE_TZ settings then tzname else "UTC")
            ++ PyStr.dquote ++ ")").
Proof.
  unfold DatabaseOperations.datetime_extract_sql.
  now rewrite format_extract_at_time_zone.
Qed.

(** X4.  [datetime_extract_sql] never raises.  It emits the unit translated
    through the synonym table and the zone in double quotes: the caller's
    zone when [USE_TZ] is on, and UTC, whatever zone the caller names,
    when it is off. *)
Theorem datetime_extract_sql_time_zone (settings : Settings)
    (unit f tzname other : string) :
  DatabaseOperations.datetime_extract_sql settings unit f tzname =
    Return ("EXTRACT(" ++ dict_get DatabaseOperations.extract_names unit unit
              ++ " FROM " ++ f ++ " AT TIME ZONE " ++ PyStr.dquote
              ++ (if USE_TZ settings then tzname else "UTC")
              ++ PyStr.dquote ++ ")")
  /\ (USE_TZ settings = false ->
      DatabaseOperations.datetime_extract_sql settings unit f tzname =
      DatabaseOperations.datetime_extract_sql settings unit f other).
Proof.
  rewrite !datetime_extract_sql_closed.
  split; [reflexivity|]. intros ->. reflexivity.
Qed.

Lemma datetime_extract_sql_time_zone_witness :
  DatabaseOperations.datetime_extract_sql {| USE_TZ := false |} "week_day"
    "col" "Europe/Paris" =
  DatabaseOperations.datetime_extract_sql {| USE_TZ := false |} "week_day"
    "col" "Asia/Tokyo".
Proof.
  exact (proj2 (datetime_extract_sql_time_zone {| USE_TZ := false |}
                  "week_day" "col" "Europe/Paris" "Asia/Tokyo") eq_refl).
Defined.

(** X5.  The unit that [date_extract_sql] and [datetime_extract_sql] emit is
    the same for both and is never one of the lookup names of the synonym
    table ([week_day], [iso_week], [iso_year]): those are always replaced. *)
Theorem extract_sql_never_emits_synonym_key (settings : Settings)
    (unit f tzname : string) :
  exists emitted,
    ~ In emitted (dict_keys DatabaseOperations.extract_names)
    /\ DatabaseOperations.date_extract_sql unit f =
         Return ("EXTRACT(" ++ emitted ++ " FROM " ++ f ++ ")")
    /\ DatabaseOperations.datetime_extract_sql settings unit f tzname =
         Return ("EXTRACT(" ++ emitted ++ " FROM " ++ f ++ " AT TIME ZONE "
                   ++ PyStr.dquote
                   ++ (if USE_TZ settings then tzname else "UTC")
                   ++ PyStr.dquote ++ ")").
Proof.
  exists (dict_get DatabaseOperations.extract_names unit unit).
  split; [apply extract_names_translated|]. split.
  - reflexivity.
  - apply datetime_extract_sql_closed.
Qed.

(** X6.  With [USE_TZ] off, and for a unit that is not a key of the synonym
    table, extraction from a datetime and extraction from a time give the
    same fragment, whatever zone the caller names. *)
Theorem datetime_extract_sql_is_time_extract_sql (settings : Settings)
    (unit f tzname : string) :
  USE_TZ settings = false ->
  ~ In unit (dict_keys DatabaseOperations.extract_names) ->
  DatabaseOperations.datetime_extract_sql settings unit f tzname =
  DatabaseOperations.time_extract_sql unit f.
Proof.
  intros Htz Hunit.
  rewrite datetime_extract_sql_closed, Htz.
  replace (dict_get DatabaseOperations.extract_names unit unit) with unit;
    [reflexivity|].
  cbn [dict_get DatabaseOperations.extract_names dict_keys map fst In]
    in Hunit |- *.
  repeat match goal with
         | |- context [String.eqb ?k unit] =>
             destruct (String.eqb_spec k unit) as [E|_];
             [exfalso; apply Hunit; rewrite E; tauto|]
         end.
  reflexivity.
Qed.

Lemma datetime_extract_sql_is_time_extract_sql_witness :
  DatabaseOperations.datetime_extract_sql {| USE_TZ := false |} "hour" "col"
    "Europe/Paris" =
  DatabaseOperations.time_extract_sql "hour" "col".
Proof.
  apply (datetime_extract_sql_is_time_extract_sql {| USE_TZ := false |}
           "hour" "col" "Europe/Paris" eq_refl).
  cbn. intros [H|[H|[H|[]]]]; discriminate H.
Defined.

(** X7.  The fragment that [lookup_cast] returns has exactly one
    placeholder, whatever the lookup: formatting it with one operand
    succeeds, and gives the cast of the operand for the eight text lookups;
    formatting it with no operand or with two raises [TypeError].  The
    internal type of the field does not change the fragment. *)
Theorem lookup_cast_one_placeholder (lookup_type : string)
    (internal_type other_type : option string) (col col' : string) :
  (In lookup_type text_lookups ->
   PyStr.format (DatabaseOperations.lookup_cast lookup_type internal_type)
     [col] = Return ("CAST(" ++ col ++ " AS STRING)"))
  /\ (exists sql,
        PyStr.format
          (DatabaseOperations.lookup_cast lookup_type internal_type) [col] =
          Return sql)
  /\ PyStr.format (DatabaseOperations.lookup_cast lookup_type internal_type)
       [] = Raise TypeError
  /\ PyStr.format (DatabaseOperations.lookup_cast lookup_type internal_type)
       [col; col'] = Raise TypeError
  /\ DatabaseOperations.lookup_cast lookup_type internal_type =
     DatabaseOperations.lookup_cast lookup_type other_type.
Proof.
  unfold DatabaseOperations.lookup_cast. fold text_lookups.
  destruct (PyStr.in_tuple lookup_type text_lookups) eqn:E.
  - repeat split; try reflexivity. eexists; reflexivity.
  - repeat split; try reflexivity.
    + intros H. apply in_tuple_In in H. congruence.
    + eexists; reflexivity.
Qed.

Lemma lookup_cast_one_placeholder_witness :
  PyStr.format (DatabaseOperations.lookup_cast "iregex" None) ["col"] =
  Return "CAST(col AS STRING)".
Proof.
  apply (proj1 (lookup_cast_one_placeholder "iregex" None None "col" "col")).
  cbn. tauto.
Defined.

(** ** Converters *)

(** X8.  [get_db_converters] keeps the converters of the base class, in
    their order, and appends at most one converter of its own after them:
    exactly one for the five internal types it knows, none for any other
    type. *)
Theorem get_db_converters_extends_base (Inherited : Type)
    (super_converters : list (DatabaseOperations.converter Inherited))
    (internal_type : string) :
  exists own,
    DatabaseOperations.get_db_converters super_converters internal_type =
      (super_converters ++ own)%list
    /\ (In internal_type converted_types -> length own = 1%nat)
    /\ (~ In internal_type converted_types -> own = [])
    /\ (forall c, ~ In (DatabaseOperations.inherited c) own).
Proof.
  unfold DatabaseOperations.get_db_converters, converted_types.
  repeat match goal with
         | |- context [String.eqb internal_type ?k] =>
             destruct (String.eqb_spec internal_type k) as [E|?]
         end;
    try (eexists; split; [reflexivity|];
         split; [reflexivity|];
         split; [intros H; exfalso; apply H; rewrite E; cbn; tauto|];
         intros c [H|[]]; discriminate H).
  exists []. split; [now rewrite app_nil_r|].
  split; [cbn; intros H; decompose [or] H; congruence || contradiction|].
  split; [reflexivity | intros c []].
Qed.

Lemma get_db_converters_extends_base_witness :
  (exists own,
     DatabaseOperations.get_db_converters
       [DatabaseOperations.inherited 7%nat] "TimeField" =
       ([DatabaseOperations.inherited 7%nat] ++ own)%list
     /\ length own = 1%nat)
  /\ (exists own,
        DatabaseOperations.get_db_converters
          [DatabaseOperations.inherited 7%nat] "CharField" =
          ([DatabaseOperations.inherited 7%nat] ++ own)%list
        /\ own = []).
Proof.
  split.
  - destruct (get_db_converters_extends_base nat
                [DatabaseOperations.inherited 7%nat] "TimeField")
      as (own & E & H1 & _).
    exists own. split; [exact E|]. apply H1. cbn. tauto.
  - destruct (get_db_converters_extends_base nat
                [DatabaseOperations.inherited 7%nat] "CharField")
      as (own & E & _ & H0 & _).
    exists own. split; [exact E|]. apply H0. cbn.
    intros H. decompose [or] H; try discriminate; contradiction.
Defined.

(** ** Datetimes and times *)

Section TemporalProperties.

Import PyTime DatabaseOperations.

Variable tzinfo : Type.
Variable tz_utcoffset : tzinfo -> option (datetime tzinfo) -> option timedelta.
Variable astimezone : datetime tzinfo -> tzinfo -> result (datetime tzinfo).
Variable settings : Settings.
Variable self_connection : DatabaseWrapper tzinfo.
Variable Expression : Type.
Variable ColumnExpression : Type.

Lemma is_aware_false_utcoffset (value : datetime tzinfo) :
  is_aware tz_utcoffset value = false -> utcoffset tz_utcoffset value = None.
Proof.
  unfold is_aware. now destruct (utcoffset tz_utcoffset value).
Qed.

(** X9.  The only ways [adapt_datetimefield_value] fails.  It raises
    exactly when the value is a timezone-aware [datetime] and either
    [USE_TZ] is off, and the exception is then [ValueError], or [USE_TZ] is
    on and the move to the connection's time zone raises, and the exception
    is then that of the move.  [None], query expressions and naive
    datetimes never raise, and the error that [make_naive] keeps for naive
    values never comes out. *)
Theorem adapt_datetimefield_value_raises
    (value : option (datetime_value tzinfo Expression)) (e : exception) :
  adapt_datetimefield_value tz_utcoffset astimezone settings self_connection
    value = Raise e
  <-> exists v,
        value = Some (IsDatetime v)
        /\ is_aware tz_utcoffset v = true
        /\ ((USE_TZ settings = false /\ e = ValueError)
            \/ (USE_TZ settings = true
                /\ astimezone v (timezone self_connection) = Raise e)).
Proof.
  unfold adapt_datetimefield_value.
  destruct value as [[x|v]|].
  - split; [discriminate|]. intros (v & H & _). discriminate H.
  - destruct (is_aware tz_utcoffset v) eqn:Haware.
    + unfold make_naive. rewrite is_naive_is_aware, Haware. cbn [negb].
      destruct (USE_TZ settings) eqn:Htz.
      * destruct (astimezone v (timezone self_connection)) as [local|e']
          eqn:Hmove; cbn [bind].
        -- split; [discriminate|].
           intros (v' & H & _ & [[H' _]|[_ H']]); [discriminate H'|].
           injection H as <-. congruence.
        -- split.
           ++ intros H. injection H as <-. exists v.
              split; [reflexivity|]. split; [exact Haware|].
              right. split; [reflexivity | exact Hmove].
           ++ intros (v' & H & _ & [[H' _]|[_ H']]); [discriminate H'|].
              injection H as <-. congruence.
      * cbn [bind]. split.
        -- intros H. injection H as <-. exists v.
           split; [reflexivity|]. split; [exact Haware|].
           left. split; reflexivity.
        -- intros (v' & _ & _ & [[_ ->]|[H' _]]);
             [reflexivity | discriminate H'].
    + cbn [bind]. split; [discriminate|].
      intros (v' & H & Haware' & _). injection H as <-. congruence.
  - split; [discriminate|]. intros (v & H & _). discriminate H.
Qed.

Lemma adapt_datetimefield_value_naive_closed (value : datetime tzinfo) :
  is_aware tz_utcoffset value = false ->
  adapt_datetimefield_value tz_utcoffset astimezone settings self_connection
    (Expression := Expression) (Some (IsDatetime value)) =
  Return
    (Some
       (Adapted
          (TimestampStr
             (zpad 4 (year value) ++ "-" ++ zpad 2 (month value) ++ "-"
                ++ zpad 2 (day value) ++ "T" ++ zpad 2 (hour value) ++ ":"
                ++ zpad 2 (minute value) ++ ":" ++ zpad 2 (second value)
                ++ "." ++ zpad 6 (microsecond value) ++ "Z")))).
Proof.
  intros Haware. unfold adapt_datetimefield_value.
  rewrite Haware. cbn [bind].
  rewrite (isoformat_microseconds_naive _ tz_utcoffset)
    by (apply is_aware_false_utcoffset; exact Haware).
  rewrite !FormatFacts.append_assoc. reflexivity.
Qed.

(** X10.  A naive [datetime] is rendered as it stands, with six fractional
    digits and a trailing Z and without any conversion: the result does not
    depend on [USE_TZ], on the connection's time zone or on what
    [astimezone] computes. *)
Theorem adapt_datetimefield_value_naive (value : datetime tzinfo) :
  is_aware tz_utcoffset value = false ->
  adapt_datetimefield_value tz_utcoffset astimezone settings self_connection
    (Expression := Expression) (Some (IsDatetime value)) =
  Return
    (Some
       (Adapted
          (TimestampStr
             (zpad 4 (year value) ++ "-" ++ zpad 2 (month value) ++ "-"
                ++ zpad 2 (day value) ++ "T" ++ zpad 2 (hour value) ++ ":"
                ++ zpad 2 (minute value) ++ ":" ++ zpad 2 (second value)
                ++ "." ++ zpad 6 (microsecond value) ++ "Z")))).
Proof. apply adapt_datetimefield_value_naive_closed. Qed.

(** X11.  Writing back what was read.  With [USE_TZ] on, a value decoded by
    [convert_datetimefield_value] and adapted again gives the year, month,
    day, hour, minute, second and microsecond of the stored value, followed
    by Z: the nanoseconds and the zone of the stored value are gone, and
    nothing else has changed.  This holds when the connection's zone has an
    offset for the decoded value and [astimezone] leaves a value of that
    zone alone. *)
Theorem adapt_convert_datetimefield_value
    (stored : DatetimeWithNanoseconds tzinfo) (decoded : datetime tzinfo)
    (expression : ColumnExpression) (connection : DatabaseWrapper tzinfo) :
  USE_TZ settings = true ->
  convert_datetimefield_value self_connection (Some stored) expression
    connection = Some decoded ->
  is_aware tz_utcoffset decoded = true ->
  astimezone decoded (timezone self_connection) = Return decoded ->
  let v := as_datetime stored in
  adapt_datetimefield_value tz_utcoffset astimezone settings self_connection
    (Expression := Expression) (Some (IsDatetime decoded)) =
  Return
    (Some
       (Adapted
          (TimestampStr
             (zpad 4 (year v) ++ "-" ++ zpad 2 (month v) ++ "-"
                ++ zpad 2 (day v) ++ "T" ++ zpad 2 (hour v) ++ ":"
                ++ zpad 2 (minute v) ++ ":" ++ zpad 2 (second v)
                ++ "." ++ zpad 6 (microsecond v) ++ "Z")))).
Proof.
  intros Htz Hconv Haware Hsame. cbv zeta.
  unfold convert_datetimefield_value in Hconv. injection Hconv as Hdec.
  unfold adapt_datetimefield_value.
  rewrite Haware, Htz. unfold make_naive.
  rewrite is_naive_is_aware, Haware. cbn [negb].
  rewrite Hsame. cbn [bind].
  rewrite (isoformat_microseconds_naive _ tz_utcoffset)
    by apply utcoffset_replace_tzinfo_None.
  subst decoded.
  cbn [replace_tzinfo_None year month day hour minute second microsecond].
  rewrite !FormatFacts.append_assoc. reflexivity.
Qed.

(** X12.  A time decoded by [convert_timefield_value] and adapted again is
    the sentinel date 0001-01-01, the hour, minute, second and microsecond
    of the stored value, and Z: the date, the zone and the nanoseconds of
    the stored value leave no trace. *)
Theorem adapt_convert_timefield_value
    (stored : DatetimeWithNanoseconds tzinfo)
    (expression : ColumnExpression) (connection : DatabaseWrapper tzinfo) :
  let v := as_datetime stored in
  adapt_timefield_value tz_utcoffset
    (convert_timefield_value (Some stored) expression connection) =
  Some
    (TimestampStr
       ("0001-01-01T" ++ zpad 2 (hour v) ++ ":" ++ zpad 2 (minute v) ++ ":"
          ++ zpad 2 (second v) ++ "." ++ zpad 6 (microsecond v) ++ "Z")).
Proof.
  cbv zeta. unfold adapt_timefield_value, convert_timefield_value.
  unfold time_isoformat_microseconds, time_utcoffset,
    format_time_microseconds.
  cbn [time_tzinfo time_hour time_minute time_second time_microsecond
         format_offset].
  rewrite FormatFacts.append_empty_r, !FormatFacts.append_assoc.
  reflexivity.
Qed.

End TemporalProperties.

Lemma adapt_datetimefield_value_naive_witness :
  DatabaseOperations.adapt_datetimefield_value FixedOffset.tz_utcoffset
    FixedOffset.astimezone {| USE_TZ := false |}
    {| DatabaseOperations.timezone := FixedOffset.utc |}
    (Expression := Empty_set)
    (Some (DatabaseOperations.IsDatetime FixedOffset.naive_sample)) =
  Return
    (Some
       (DatabaseOperations.Adapted
          (DatabaseOperations.TimestampStr "2020-02-03T04:05:06.000007Z"))).
Proof.
  exact (adapt_datetimefield_value_naive FixedOffset.tzinfo
           FixedOffset.tz_utcoffset FixedOffset.astimezone {| USE_TZ := false |}
           {| DatabaseOperations.timezone := FixedOffset.utc |}
           Empty_set FixedOffset.naive_sample eq_refl).
Defined.

Lemma adapt_convert_datetimefield_value_witness :
  DatabaseOperations.adapt_datetimefield_value FixedOffset.tz_utcoffset
    FixedOffset.astimezone {| USE_TZ := true |}
    {| DatabaseOperations.timezone := FixedOffset.utc |}
    (Expression := Empty_set)
    (Some (DatabaseOperations.IsDatetime FixedOffset.sample)) =
  Return
    (Some
       (DatabaseOperations.Adapted
          (DatabaseOperations.TimestampStr "2020-02-03T04:05:06.000007Z"))).
Proof.
  exact (adapt_convert_datetimefield_value FixedOffset.tzinfo
           FixedOffset.tz_utcoffset FixedOffset.astimezone {| USE_TZ := true |}
           {| DatabaseOperations.timezone := FixedOffset.utc |}
           Empty_set unit FixedOffset.stored_sample FixedOffset.sample tt
           {| DatabaseOperations.timezone := FixedOffset.utc |}
           eq_refl eq_refl eq_refl eq_refl).
Defined.

(** ** Binary values *)

Module Base64Decoding.

Import Base64 Base64Accounting.
Local Open Scope list_scope.
Local Open Scope N_scope.

Lemma alphabet_not_pad (c : byte) :
  is_alphabet c = true -> Byte.eqb c BASE64_PAD = false.
Proof.
  intros H. destruct (Byte.eqb c BASE64_PAD) eqn:E; [|reflexivity].
  apply byte_dec_bl in E. subst c. discriminate H.
Qed.

(** One iteration of the loop on a character of the alphabet. *)
Lemma loop_step_alphabet (c : byte) (rest : list byte)
    (quad_pos leftchar pads : N) (bin_data : list byte) :
  is_alphabet c = true ->
  quad_pos < 4 ->
  exists leftchar' bin_data',
    a2b_base64_loop (c :: rest) quad_pos leftchar pads bin_data =
    a2b_base64_loop rest ((quad_pos + 1) mod 4) leftchar' 0 bin_data'
    /\ (4 * length bin_data' + debt ((quad_pos + 1) mod 4) =
        4 * length bin_data + debt quad_pos + 3)%nat.
Proof.
  intros Hc Hq. cbn [a2b_base64_loop].
  rewrite (alphabet_not_pad c Hc).
  unfold is_alphabet in Hc. apply N.ltb_lt in Hc.
  replace (64 <=? table_a2b_base64 c) with false
    by (symmetry; apply N.leb_gt; exact Hc).
  assert (quad_pos = 0 \/ quad_pos = 1 \/ quad_pos = 2 \/ quad_pos = 3)
    as [-> | [-> | [-> | ->]]] by lia;
    eexists; eexists; (split; [reflexivity|]);
    rewrite ?length_app; cbn; lia.
Qed.

Lemma loop_alphabet_only (data : list byte) :
  forall (quad_pos leftchar pads : N) (bin_data : list byte),
    forallb is_alphabet data = true ->
    quad_pos < 4 ->
    if (quad_pos + N.of_nat (length data)) mod 4 =? 0
    then exists v,
           a2b_base64_loop data quad_pos leftchar pads bin_data = Return v
           /\ (4 * length v =
               4 * length bin_data + debt quad_pos + 3 * length data)%nat
    else a2b_base64_loop data quad_pos leftchar pads bin_data =
         Raise BinasciiError.
Proof.
  induction data as [|c rest IH]; intros quad_pos leftchar pads bin_data Hd Hq.
  - cbn [length N.of_nat a2b_base64_loop]. rewrite N.add_0_r.
    rewrite (N.mod_small quad_pos 4 Hq).
    destruct (quad_pos =? 0) eqn:E; [|reflexivity].
    apply N.eqb_eq in E. subst quad_pos.
    exists bin_data. split; [reflexivity | cbn; lia].
  - cbn [forallb] in Hd. apply andb_true_iff in Hd. destruct Hd as [Hc Hd].
    destruct (loop_step_alphabet c rest quad_pos leftchar pads bin_data Hc Hq)
      as (leftchar' & bin_data' & Hstep & Hlen).
    rewrite Hstep.
    assert (Hq' : (quad_pos + 1) mod 4 < 4) by (apply N.mod_lt; lia).
    specialize (IH ((quad_pos + 1) mod 4) leftchar' 0 bin_data' Hd Hq').
    replace ((quad_pos + N.of_nat (length (c :: rest))) mod 4)
      with (((quad_pos + 1) mod 4 + N.of_nat (length rest)) mod 4).
    + destruct (((quad_pos + 1) mod 4 + N.of_nat (length rest)) mod 4 =? 0).
      * destruct IH as (v & Hv & Hvlen). exists v. split; [exact Hv|].
        cbn [length]. lia.
      * exact IH.
    + rewrite N.Div0.add_mod_idemp_l. f_equal. cbn [length]. lia.
Qed.

(** Characters outside the alphabet, other than the pad, are skipped. *)
Lemma loop_skips (c : byte) (post pre : list byte) :
  is_alphabet c = false ->
  Byte.eqb c BASE64_PAD = false ->
  forall (quad_pos leftchar pads : N) (bin_data : list byte),
    a2b_base64_loop (pre ++ c :: post) quad_pos leftchar pads bin_data =
    a2b_base64_loop (pre ++ post) quad_pos leftchar pads bin_data.
Proof.
  intros Hc Hpad. unfold is_alphabet in Hc. apply N.ltb_ge in Hc.
  apply N.leb_le in Hc.
  induction pre as [|x pre IH]; intros quad_pos leftchar pads bin_data.
  - cbn [app a2b_base64_loop]. now rewrite Hpad, Hc.
  - cbn [app a2b_base64_loop].
    destruct (Byte.eqb x BASE64_PAD).
    + destruct (2 <=? quad_pos); [|apply IH].
      destruct (4 <=? quad_pos + (pads + 1)); [reflexivity | apply IH].
    + destruct (64 <=? table_a2b_base64 x); [apply IH|].
      destruct quad_pos as [|[[|[]|]|[|[]|]|]]; apply IH.
Qed.

(** Whatever the input, four bytes of output take at least three
    characters of input. *)
Lemma loop_length_bound (data : list byte) :
  forall (quad_pos leftchar pads : N) (bin_data v : list byte),
    quad_pos < 4 ->
    a2b_base64_loop data quad_pos leftchar pads bin_data = Return v ->
    (4 * length v <= 4 * length bin_data + debt quad_pos + 3 * length data)%nat.
Proof.
  induction data as [|c rest IH]; intros quad_pos leftchar pads bin_data v Hq.
  - cbn [a2b_base64_loop]. destruct (quad_pos =? 0); [|discriminate].
    intros H. injection H as <-. cbn [length]. lia.
  - cbn [a2b_base64_loop length].
    destruct (Byte.eqb c BASE64_PAD).
    + destruct (2 <=? quad_pos).
      * destruct (4 <=? quad_pos + (pads + 1)).
        -- intros H. injection H as <-. lia.
        -- intros H. apply IH in H; [lia | exact Hq].
      * intros H. apply IH in H; [lia | exact Hq].
    + destruct (64 <=? table_a2b_base64 c).
      * intros H. apply IH in H; [lia | exact Hq].
      * assert (quad_pos = 0 \/ quad_pos = 1 \/ quad_pos = 2 \/ quad_pos = 3)
          as [-> | [-> | [-> | ->]]] by lia;
          intros H; apply IH in H; try lia;
          rewrite ?length_app in H; cbn in H |- *; lia.
Qed.

End Base64Decoding.

Section BinaryProperties.

Import Base64 Base64Accounting DatabaseOperations.

Variable tzinfo : Type.
Variable ColumnExpression : Type.
Variable expression : ColumnExpression.
Variable connection : DatabaseWrapper tzinfo.

(** X13.  Base64 text without padding.  When the stored text consists of
    alphabet characters only, [convert_binaryfield_value] succeeds exactly
    when the number of characters is a multiple of four, and then returns
    three bytes for every four characters; for any other length it raises
    the error of [binascii], which the converter lets through. *)
Theorem convert_binaryfield_value_unpadded (data : list byte) :
  forallb is_alphabet data = true ->
  (length data mod 4 = 0 ->
   exists v,
     convert_binaryfield_value (Some data) expression connection =
       Return (Some v)
     /\ 4 * length v = 3 * length data)%nat
  /\ ((length data mod 4)%nat <> 0%nat ->
      convert_binaryfield_value (Some data) expression connection =
        Raise BinasciiError).
Proof.
  intros Hd. unfold convert_binaryfield_value, b64decode, a2b_base64.
  pose proof (Base64Decoding.loop_alphabet_only data 0 0 0 [] Hd
                ltac:(reflexivity)) as H.
  rewrite N.add_0_l in H.
  change 4%N with (N.of_nat 4) in H. rewrite <- Nat2N.inj_mod in H.
  split; intros Hmod.
  - rewrite Hmod in H. cbn [N.of_nat N.eqb] in H.
    destruct H as (v & -> & Hlen). exists v. split; [reflexivity|].
    cbn [length debt] in Hlen. lia.
  - destruct (N.of_nat (length data mod 4) =? 0)%N eqn:E.
    + apply N.eqb_eq in E. lia.
    + now rewrite H.
Qed.

(** X14.  A character that is neither in the alphabet nor the pad (a line
    break, a blank) can be dropped from the stored text without changing
    what [convert_binaryfield_value] returns or raises. *)
Theorem convert_binaryfield_value_skips (pre post : list byte) (c : byte) :
  is_alphabet c = false ->
  Byte.eqb c BASE64_PAD = false ->
  convert_binaryfield_value (Some (pre ++ c :: post)%list) expression
    connection =
  convert_binaryfield_value (Some (pre ++ post)%list) expression connection.
Proof.
  intros Hc Hpad. unfold convert_binaryfield_value, b64decode, a2b_base64.
  now rewrite (Base64Decoding.loop_skips c post pre Hc Hpad).
Qed.

(** X15.  Whatever the stored text is, a successful conversion never
    returns more than three bytes for every four characters of it. *)
Theorem convert_binaryfield_value_length (data v : list byte) :
  convert_binaryfield_value (Some data) expression connection =
    Return (Some v) ->
  (4 * length v <= 3 * length data)%nat.
Proof.
  unfold convert_binaryfield_value, b64decode, a2b_base64.
  destruct (a2b_base64_loop data 0 0 0 []) as [w|e] eqn:E; [|discriminate].
  cbn [bind]. intros H. injection H as <-.
  apply Base64Decoding.loop_length_bound in E; [|reflexivity].
  cbn [length debt] in E. lia.
Qed.

End BinaryProperties.

Lemma convert_binaryfield_value_unpadded_witness :
  (exists v,
     DatabaseOperations.convert_binaryfield_value
       (Some (Base64Accounting.ascii_bytes "QUJD")) tt
       {| DatabaseOperations.timezone := FixedOffset.utc |} =
       Return (Some v)
     /\ 4 * length v = 3 * length (Base64Accounting.ascii_bytes "QUJD"))%nat
  /\ DatabaseOperations.convert_binaryfield_value
       (Some (Base64Accounting.ascii_bytes "QUJ")) tt
       {| DatabaseOperations.timezone := FixedOffset.utc |} =
       Raise BinasciiError.
Proof.
  split.
  - apply (proj1 (convert_binaryfield_value_unpadded FixedOffset.tzinfo unit
                    tt {| DatabaseOperations.timezone := FixedOffset.utc |}
                    (Base64Accounting.ascii_bytes "QUJD") eq_refl)).
    reflexivity.
  - apply (proj2 (convert_binaryfield_value_unpadded FixedOffset.tzinfo unit
                    tt {| DatabaseOperations.timezone := FixedOffset.utc |}
                    (Base64Accounting.ascii_bytes "QUJ") eq_refl)).
    discriminate.
Defined.

Lemma convert_binaryfield_value_skips_witness :
  DatabaseOperations.convert_binaryfield_value
    (Some (Base64Accounting.ascii_bytes "QU" ++ x0a
             :: Base64Accounting.ascii_bytes "JD")%list) tt
    {| DatabaseOperations.timezone := FixedOffset.utc |} =
  DatabaseOperations.convert_binaryfield_value
    (Some (Base64Accounting.ascii_bytes "QU"
             ++ Base64Accounting.ascii_bytes "JD")%list) tt
    {| DatabaseOperations.timezone := FixedOffset.utc |}.
Proof.
  exact (convert_binaryfield_value_skips FixedOffset.tzinfo unit tt
           {| DatabaseOperations.timezone := FixedOffset.utc |}
           (Base64Accounting.ascii_bytes "QU")
           (Base64Accounting.ascii_bytes "JD") x0a eq_refl eq_refl).
Defined.

Lemma convert_binaryfield_value_length_witness :
  (4 * length (Base64Accounting.ascii_bytes "AB")
   <= 3 * length (Base64Accounting.ascii_bytes "QUI="))%nat.
Proof.
  exact (convert_binaryfield_value_length FixedOffset.tzinfo unit tt
           {| DatabaseOperations.timezone := FixedOffset.utc |}
           (Base64Accounting.ascii_bytes "QUI=")
           (Base64Accounting.ascii_bytes "AB") eq_refl).
Defined.

(** ** Lookup operands *)

Module EscapeFacts.

Import Pattern.

Lemma backslash_is_special : Re.is_special "\" = true.
Proof. reflexivity. Qed.

Lemma not_special_not_backslash (c : ascii) :
  Re.is_special c = false -> Ascii.eqb c "\" = false.
Proof.
  intros H. destruct (Ascii.eqb_spec c "\") as [->|]; [|reflexivity].
  rewrite backslash_is_special in H. discriminate H.
Qed.

Lemma unescape_escape (s : string) : unescape (Re.escape s) = s.
Proof.
  induction s as [|c s IH]; [reflexivity|].
  cbn [Re.escape]. destruct (Re.is_special c) eqn:E.
  - cbn [unescape]. rewrite Ascii.eqb_refl. now rewrite IH.
  - cbn [unescape]. rewrite (not_special_not_backslash c E). now rewrite IH.
Qed.

Lemma all_literal_escape (s : string) : all_literal (Re.escape s) = true.
Proof.
  induction s as [|c s IH]; [reflexivity|].
  cbn [Re.escape]. destruct (Re.is_special c) eqn:E.
  - cbn [all_literal]. rewrite Ascii.eqb_refl. exact IH.
  - cbn [all_literal]. rewrite (not_special_not_backslash c E), E. exact IH.
Qed.

Lemma escape_plain (s : string) : plain s = true -> Re.escape s = s.
Proof.
  induction s as [|c s IH]; [reflexivity|].
  cbn [plain Re.escape]. intros H. apply andb_true_iff in H.
  destruct H as [Hc Hs]. apply negb_true_iff in Hc.
  now rewrite Hc, (IH Hs).
Qed.

Lemma escape_app (s t : string) :
  Re.escape (s ++ t) = Re.escape s ++ Re.escape t.
Proof.
  induction s as [|c s IH]; [reflexivity|].
  cbn [append Re.escape]. destruct (Re.is_special c); cbn [append];
    now rewrite IH.
Qed.

Lemma escape_length (s : string) :
  (String.length s <= String.length (Re.escape s)
   <= 2 * String.length s)%nat.
Proof.
  induction s as [|c s IH]; [cbn; lia|].
  cbn [Re.escape]. destruct (Re.is_special c); cbn [String.length]; lia.
Qed.

Lemma escape_length_exact (s : string) :
  String.length (Re.escape s) = (String.length s + specials s)%nat.
Proof.
  induction s as [|c s IH]; [reflexivity|].
  cbn [Re.escape specials]. destruct (Re.is_special c);
    cbn [String.length]; lia.
Qed.

End EscapeFacts.


Section OperandProperties.

Import Pattern DatabaseOperations.

Variable object : Type.
Variable str : object -> string.

(** X16.  The prepared operand loses nothing: two operands are prepared to
    the same pattern exactly when their string renderings are equal, and
    reading the pattern with its escapes gives the rendering back. *)
Theorem prep_for_like_query_lossless (x y : object) :
  (prep_for_like_query str x = prep_for_like_query str y <-> str x = str y)
  /\ unescape (prep_for_like_query str x) = str x.
Proof.
  unfold prep_for_like_query. split; [split|].
  - intros H. rewrite <- (EscapeFacts.unescape_escape (str x)), H.
    apply EscapeFacts.unescape_escape.
  - intros ->. reflexivity.
  - apply EscapeFacts.unescape_escape.
Qed.


(** X18.  An operand whose rendering has no special character is passed on
    unchanged; in general the prepared operand is at least as long as the
    rendering and at most twice as long. *)
Theorem prep_for_like_query_plain (x : object) :
  (plain (str x) = true -> prep_for_like_query str x = str x)
  /\ (String.length (str x) <= String.length (prep_for_like_query str x)
      <= 2 * String.length (str x))%nat.
Proof.
  split.
  - apply EscapeFacts.escape_plain.
  - apply EscapeFacts.escape_length.
Qed.

(** X19.  Preparing distributes over concatenation: when the rendering of
    an operand is the renderings of two others put together, its prepared
    form is their prepared forms put together. *)
Theorem prep_for_like_query_app (x y z : object) :
  str z = str x ++ str y ->
  prep_for_like_query str z =
  prep_for_like_query str x ++ prep_for_like_query str y.
Proof.
  intros H. unfold prep_for_like_query. rewrite H.
  apply EscapeFacts.escape_app.
Qed.

End OperandProperties.

Lemma prep_for_like_query_plain_witness :
  DatabaseOperations.prep_for_like_query (fun s : string => s) "abc_123"
  = "abc_123".
Proof.
  apply (proj1 (prep_for_like_query_plain string (fun s => s) "abc_123")).
  reflexivity.
Defined.

Lemma prep_for_like_query_app_witness :
  DatabaseOperations.prep_for_like_query (fun s : string => s) "50%.a+b" =
  DatabaseOperations.prep_for_like_query (fun s : string => s) "50%."
    ++ DatabaseOperations.prep_for_like_query (fun s : string => s) "a+b".
Proof.
  exact (prep_for_like_query_app string (fun s => s) "50%." "a+b" "50%.a+b"
           eq_refl).
Defined.

(** ** Nothing is lost in the strings *)

Module DigitFacts.

Import Decimal Digits PyTime.
Local Open Scope N_scope.

Lemma read_pos (d : uint) (p : positive) :
  read d (Npos p) = Npos (Pos.of_uint_acc d p).
Proof.
  revert p. induction d; intros p; cbn [read Pos.of_uint_acc];
    try reflexivity;
    match goal with
    | |- read _ ?a = _ =>
        match goal with
        | |- _ = N.pos (Pos.of_uint_acc _ ?b) =>
            replace a with (N.pos b) by lia
        end
    end; apply IHd.
Qed.

Lemma read_zero (d : uint) : read d 0 = Pos.of_uint d.
Proof.
  induction d; cbn [read Pos.of_uint]; try reflexivity;
    try exact IHd; cbn [N.mul N.add]; apply read_pos.
Qed.

Lemma numbers_from_digits (d : uint) (rest : string) (acc : N) :
  numbers_from (NilEmpty.string_of_uint d ++ rest) (Some acc) =
  numbers_from rest (Some (read d acc)).
Proof.
  revert acc. induction d; intros acc; cbn [NilEmpty.string_of_uint append read];
    try reflexivity;
    cbn [numbers_from]; 
    match goal with |- context [is_digit ?c] => change (is_digit c) with true end;
    cbv iota; rewrite IHd;
    match goal with
    | |- numbers_from _ (Some (read _ ?a)) = numbers_from _ (Some (read _ ?b)) =>
        replace a with b by (unfold digit_value; cbn; lia)
    end; reflexivity.
Qed.

Lemma numbers_from_zeros (k : nat) (rest : string) :
  numbers_from (zeros k ++ rest) (Some 0) = numbers_from rest (Some 0).
Proof.
  induction k as [|k IH]; [reflexivity|].
  cbn [zeros append numbers_from].
  change (is_digit "0") with true. cbv iota. exact IH.
Qed.

Lemma to_uint_read (n : N) : read (N.to_uint n) 0 = n.
Proof. rewrite read_zero. apply DecimalN.Unsigned.of_to. Qed.

Lemma decimal_digits (n : N) :
  decimal n = NilEmpty.string_of_uint (N.to_uint n).
Proof.
  unfold decimal, NilZero.string_of_uint.
  destruct (N.to_uint n) eqn:E; try reflexivity.
  destruct n; cbn in E; [discriminate|].
  exfalso. revert E. apply DecimalPos.Unsigned.to_uint_nonnil.
Qed.

Lemma to_uint_nonnil (n : N) : N.to_uint n <> Nil.
Proof.
  destruct n; cbn; [discriminate | apply DecimalPos.Unsigned.to_uint_nonnil].
Qed.

Lemma numbers_from_digits_start (d : uint) (rest : string) :
  d <> Nil ->
  numbers_from (NilEmpty.string_of_uint d ++ rest) None =
  numbers_from rest (Some (read d 0)).
Proof.
  intros Hd. rewrite <- numbers_from_digits.
  destruct d; [contradiction | reflexivity ..].
Qed.

(** A zero-padded number, read at the start of a run, is read as that
    number, whatever the width. *)
Lemma numbers_from_zpad (w : nat) (n : N) (rest : string) :
  numbers_from (zpad w n ++ rest) None = numbers_from rest (Some n).
Proof.
  unfold zpad. rewrite FormatFacts.append_assoc, decimal_digits.
  destruct (w - String.length (NilEmpty.string_of_uint (N.to_uint n)))%nat
    as [|k].
  - cbn [zeros append].
    rewrite numbers_from_digits_start by apply to_uint_nonnil.
    now rewrite to_uint_read.
  - cbn [zeros append numbers_from].
    change (is_digit "0") with true. cbv iota.
    change (10 * 0 + digit_value "0") with 0.
    rewrite numbers_from_zeros, numbers_from_digits.
    now rewrite to_uint_read.
Qed.

(** The end of a run: a character that is no digit. *)
Lemma numbers_from_separator (c : ascii) (rest : string) (n : N) :
  is_digit c = false ->
  numbers_from (String c rest) (Some n) = n :: numbers_from rest None.
Proof. intros H. cbn [numbers_from]. now rewrite H. Qed.

Lemma numbers_date (y m d : N) :
  numbers (zpad 4 y ++ "-" ++ zpad 2 m ++ "-" ++ zpad 2 d) = [y; m; d].
Proof.
  unfold numbers.
  rewrite numbers_from_zpad. cbn [append].
  rewrite numbers_from_separator by reflexivity.
  rewrite numbers_from_zpad. cbn [append].
  rewrite numbers_from_separator by reflexivity.
  rewrite <- (FormatFacts.append_empty_r (zpad 2 d)).
  rewrite numbers_from_zpad. reflexivity.
Qed.

Lemma numbers_timestamp (y m d hh mm ss us : N) :
  numbers (zpad 4 y ++ "-" ++ zpad 2 m ++ "-" ++ zpad 2 d ++ "T"
             ++ zpad 2 hh ++ ":" ++ zpad 2 mm ++ ":" ++ zpad 2 ss ++ "."
             ++ zpad 6 us ++ "Z") = [y; m; d; hh; mm; ss; us].
Proof.
  unfold numbers.
  repeat (rewrite numbers_from_zpad; cbn [append];
          rewrite numbers_from_separator by reflexivity).
  reflexivity.
Qed.

End DigitFacts.

Section LosslessProperties.

Import Digits PyTime DatabaseOperations.

Variable tzinfo : Type.
Variable tz_utcoffset : tzinfo -> option (datetime tzinfo) -> option timedelta.
Variable astimezone : datetime tzinfo -> tzinfo -> result (datetime tzinfo).
Variable settings : Settings.
Variable self_connection : DatabaseWrapper tzinfo.
Variable Expression : Type.

(** X20.  Nothing of a date is lost.  The numbers written in an adapted
    date are its year, month and day, in that order, so two values are
    adapted to the same result exactly when they are equal. *)
Theorem adapt_datefield_value_lossless (d : date)
    (value other : option date) :
  (exists s,
      adapt_datefield_value (Some d) = Some (DateStr s)
      /\ numbers s = [date_year d; date_month d; date_day d])
  /\ (adapt_datefield_value value = adapt_datefield_value other
      <-> value = other).
Proof.
  split.
  - eexists. split; [reflexivity | apply DigitFacts.numbers_date].
  - split; [|intros ->; reflexivity].
    destruct value as [d1|], other as [d2|]; cbn [adapt_datefield_value];
      try discriminate; [|reflexivity].
    intros H.
    apply (f_equal (fun r => match r with
                             | Some (DateStr s) => numbers s
                             | None => []
                             end)) in H.
    assert (H' : [date_year d1; date_month d1; date_day d1] =
                 [date_year d2; date_month d2; date_day d2]).
    { rewrite <- !DigitFacts.numbers_date. exact H. }
    destruct d1, d2. cbn in H'. injection H' as -> -> ->. reflexivity.
Qed.

(** X21.  Nothing of a naive [datetime] is lost down to the microsecond.
    The numbers written in its adapted form are its year, month, day, hour,
    minute, second and microsecond, and two naive values are adapted to the
    same result exactly when these seven fields agree. *)
Theorem adapt_datetimefield_value_lossless (value other : datetime tzinfo) :
  is_aware tz_utcoffset value = false ->
  is_aware tz_utcoffset other = false ->
  let adapt :=
    fun v =>
      adapt_datetimefield_value tz_utcoffset astimezone settings
        self_connection (Expression := Expression) (Some (IsDatetime v)) in
  (exists s,
      adapt value = Return (Some (Adapted (TimestampStr s)))
      /\ numbers s =
           [year value; month value; day value; hour value; minute value;
            second value; microsecond value])
  /\ (adapt value = adapt other
      <-> year value = year other /\ month value = month other
          /\ day value = day other /\ hour value = hour other
          /\ minute value = minute other /\ second value = second other
          /\ microsecond value = microsecond other).
Proof.
  intros Hv Ho. cbv beta zeta.
  rewrite !adapt_datetimefield_value_naive_closed by assumption.
  split.
  - eexists. split; [reflexivity | apply DigitFacts.numbers_timestamp].
  - split.
    + intros H. injection H as H.
      apply (f_equal numbers) in H.
      assert (H' : [year value; month value; day value; hour value;
                    minute value; second value; microsecond value] =
                   [year other; month other; day other; hour other;
                    minute other; second other; microsecond other]).
      { rewrite <- !DigitFacts.numbers_timestamp. exact H. }
      injection H' as -> -> -> -> -> -> ->. repeat split.
    + intros (-> & -> & -> & -> & -> & -> & ->). reflexivity.
Qed.

(** X22.  Nothing of a naive time is lost either.  The numbers written in
    its adapted form are 1, 1, 1 for the sentinel date and then its hour,
    minute, second and microsecond, and two naive times are adapted to the
    same result exactly when they are equal. *)
Theorem adapt_timefield_value_lossless (value other : time tzinfo) :
  time_tzinfo value = None ->
  time_tzinfo other = None ->
  (exists s,
      adapt_timefield_value tz_utcoffset (Some value) =
        Some (TimestampStr s)
      /\ numbers s =
           [1; 1; 1; time_hour value; time_minute value; time_second value;
            time_microsecond value]%N)
  /\ (adapt_timefield_value tz_utcoffset (Some value) =
      adapt_timefield_value tz_utcoffset (Some other)
      <-> value = other).
Proof.
  intros Hv Ho.
  assert (Hform : forall v : time tzinfo,
             time_tzinfo v = None ->
             adapt_timefield_value tz_utcoffset (Some v) =
             Some (TimestampStr
                     (zpad 4 1 ++ "-" ++ zpad 2 1 ++ "-" ++ zpad 2 1 ++ "T"
                        ++ zpad 2 (time_hour v) ++ ":"
                        ++ zpad 2 (time_minute v) ++ ":"
                        ++ zpad 2 (time_second v) ++ "."
                        ++ zpad 6 (time_microsecond v) ++ "Z"))).
  { intros v H. unfold adapt_timefield_value, time_isoformat_microseconds,
      time_utcoffset, format_time_microseconds.
    rewrite H. cbn [format_offset].
    rewrite FormatFacts.append_empty_r, !FormatFacts.append_assoc.
    reflexivity. }
  rewrite (Hform value Hv), (Hform other Ho). split.
  - eexists. split; [reflexivity | apply DigitFacts.numbers_timestamp].
  - split; [|intros ->; reflexivity].
    intros H.
    apply (f_equal (fun r => match r with
                             | Some (TimestampStr s) => numbers s
                             | None => []
                             end)) in H.
    assert (H' : [1; 1; 1; time_hour value; time_minute value;
                  time_second value; time_microsecond value]%N =
                 [1; 1; 1; time_hour other; time_minute other;
                  time_second other; time_microsecond other]%N).
    { rewrite <- !DigitFacts.numbers_timestamp. exact H. }
    destruct value, other. cbn in Hv, Ho, H'. subst.
    injection H' as -> -> -> ->. reflexivity.
Qed.

End LosslessProperties.

Lemma adapt_datetimefield_value_lossless_witness :
  exists s,
    DatabaseOperations.adapt_datetimefield_value FixedOffset.tz_utcoffset
      FixedOffset.astimezone {| USE_TZ := true |}
      {| DatabaseOperations.timezone := FixedOffset.utc |}
      (Expression := Empty_set)
      (Some (DatabaseOperations.IsDatetime FixedOffset.naive_sample)) =
      Return
        (Some (DatabaseOperations.Adapted (DatabaseOperations.TimestampStr s)))
    /\ Digits.numbers s = [2020; 2; 3; 4; 5; 6; 7]%N.
Proof.
  exact (proj1 (adapt_datetimefield_value_lossless FixedOffset.tzinfo
                  FixedOffset.tz_utcoffset FixedOffset.astimezone
                  {| USE_TZ := true |}
                  {| DatabaseOperations.timezone := FixedOffset.utc |}
                  Empty_set FixedOffset.naive_sample FixedOffset.naive_sample
                  eq_refl eq_refl)).
Defined.

Lemma adapt_timefield_value_lossless_witness :
  exists s,
    DatabaseOperations.adapt_timefield_value FixedOffset.tz_utcoffset
      (Some FixedOffset.naive_time) =
      Some (DatabaseOperations.TimestampStr s)
    /\ Digits.numbers s = [1; 1; 1; 23; 59; 58; 999999]%N.
Proof.
  exact (proj1 (adapt_timefield_value_lossless FixedOffset.tzinfo
                  FixedOffset.tz_utcoffset FixedOffset.naive_time
                  FixedOffset.naive_time eq_refl eq_refl)).
Defined.
